(** * Substation monitor: the local store (static/db.js) and the LAN
      synchronisation coordinator (static/sync.js)

    The store of db.js is an IndexedDB database with four object stores
    (substations, machines, images, syncRecords), each created with
    [{ keyPath: 'id', autoIncrement: true }].  The development embeds

    - the part of the platform the code relies on: JavaScript strings
      with [String.prototype.trim], truthiness, and an object store with
      its key generator, its unique index and its transactions;
    - the functions of db.js that read and write the four stores, each
      as a function from a database state to a new state and a settled
      promise;
    - the coordinator of sync.js, as functions over its module-level
      variables.

    One asynchronous function runs from start to end without another one
    interleaved: a state is what the database holds between two calls. *)

From Stdlib Require Import List ListDec NArith ZArith Bool Lia Sorted.
From Stdlib Require Import String Ascii DecimalString.
Import ListNotations.
Open Scope N_scope.

(** ** JavaScript values *)

Module Js.

(** A string is a sequence of UTF-16 code units. *)
Definition jsstring := list N.

Definition str (s : string) : jsstring :=
  map N_of_ascii (list_ascii_of_string s).

Definition string_eqb (a b : jsstring) : bool :=
  if list_eq_dec N.eq_dec a b then true else false.

(** WhiteSpace and LineTerminator of ECMAScript, the code points that
    [trim] removes.  All of them are in the basic plane. *)
Definition isWhiteSpace (c : N) : bool :=
  (c =? 0x09) || (c =? 0x0A) || (c =? 0x0B) || (c =? 0x0C) || (c =? 0x0D)
  || (c =? 0x20) || (c =? 0xA0) || (c =? 0x1680)
  || ((0x2000 <=? c) && (c <=? 0x200A))
  || (c =? 0x2028) || (c =? 0x2029) || (c =? 0x202F) || (c =? 0x205F)
  || (c =? 0x3000) || (c =? 0xFEFF).

Fixpoint trimStart (s : jsstring) : jsstring :=
  match s with
  | c :: s' => if isWhiteSpace c then trimStart s' else s
  | [] => []
  end.

Definition trimEnd (s : jsstring) : jsstring := rev (trimStart (rev s)).

Definition trim (s : jsstring) : jsstring := trimEnd (trimStart s).

(** [new Date().toISOString()]: the reading of the wall clock, in
    milliseconds since the epoch.  The ISO strings of two readings
    compare as the readings do. *)
Definition timestamp := N.

(** [x || ''] for a string argument that may be undefined or null. *)
Definition orEmpty (x : option jsstring) : jsstring :=
  match x with Some s => s | None => [] end.

(** Truthiness of an optional string: undefined, null and the empty
    string are falsy. *)
Definition truthyString (x : option jsstring) : bool :=
  match x with Some (_ :: _) => true | _ => false end.

(** Truthiness of an optional number: undefined, null and 0 are falsy. *)
Definition truthyNumber (x : option N) : bool :=
  match x with Some n => negb (n =? 0) | None => false end.

(** What a promise settles to. *)
Inductive JsError :=
| TypeError             (* iterating or reading a property of undefined *)
| ConstraintError       (* DOMException of a failed request *)
| NameExists.           (* new Error('变电站名称已存在') *)

Inductive Settled (A : Type) :=
| Resolved (a : A)
| Rejected (e : JsError).
Arguments Resolved {A} a.
Arguments Rejected {A} e.

End Js.
Import Js.

(** ** Object stores *)

Module Idb.

(** A record of a store with in-line key [id]. *)
Record Stored (V : Type) := mkStored { id : N; fields : V }.
Arguments mkStored {V} id fields.
Arguments id {V} s.
Arguments fields {V} s.

(** The records in ascending key order (the order of [getAll]) and the
    current number of the key generator. *)
Record ObjectStore (V : Type) := mkStore {
  records : list (Stored V);
  current : N
}.
Arguments mkStore {V} records current.
Arguments records {V} o.
Arguments current {V} o.

Section Store.
Context {V : Type}.

(** A store just created: no record, generator at 1. *)
Definition created : ObjectStore V := mkStore [] 1.

(** [unique a b] tells that [a] and [b] have the same key in a unique
    index of the store; a store without one passes [noIndex]. *)
Definition noIndex (a b : V) : bool := false.

(** [store.add(value)] for a value without [id]: the key is
    generated; the request fails with ConstraintError when a unique
    index already holds the value's index key.  The generator's limit
    of 2^53 is out of reach and not modelled. *)
Definition add (unique : V -> V -> bool) (o : ObjectStore V) (v : V)
  : option (ObjectStore V * N) :=
  if existsb (fun r => unique (fields r) v) (records o) then None
  else Some (mkStore (records o ++ [mkStored (current o) v])
                     (current o + 1),
             current o).

Fixpoint replaceOrInsert (k : N) (v : V) (l : list (Stored V))
  : list (Stored V) :=
  match l with
  | [] => [mkStored k v]
  | r :: l' =>
      if k =? id r then mkStored k v :: l'
      else if k <? id r then mkStored k v :: r :: l'
      else r :: replaceOrInsert k v l'
  end.

(** [store.put(value)] for a value that carries its [id]: the record
    of that key is replaced or created, and the generator moves past
    the key. *)
Definition put (o : ObjectStore V) (k : N) (v : V) : ObjectStore V * N :=
  (mkStore (replaceOrInsert k v (records o))
           (if current o <=? k then k + 1 else current o),
   k).

(** [store.get(key)] *)
Definition get (o : ObjectStore V) (k : N) : option (Stored V) :=
  find (fun r => id r =? k) (records o).

(** [store.delete(key)]; succeeds whether or not the key is there. *)
Definition delete (o : ObjectStore V) (k : N) : ObjectStore V :=
  mkStore (filter (fun r => negb (id r =? k)) (records o)) (current o).

(** [store.clear()]; the key generator is not reset. *)
Definition clear (o : ObjectStore V) : ObjectStore V :=
  mkStore [] (current o).

(** [store.getAll()] *)
Definition getAll (o : ObjectStore V) : list (Stored V) := records o.

Definition keys (o : ObjectStore V) : list N := map id (records o).

(** What the platform maintains: keys ascend strictly, and lie
    between 1 and the generator's current number, itself 1 at
    least. *)
Definition wf (o : ObjectStore V) : Prop :=
  StronglySorted N.lt (keys o) /\
  Forall (fun k => 1 <= k < current o) (keys o) /\
  1 <= current o.

(** A key that the generator has passed and that is not stored: the key
    of a record that was deleted, cleared or rolled back. *)
Definition retired (o : ObjectStore V) (k : N) : Prop :=
  k < current o /\ ~ In k (keys o).

End Store.

(** How a readwrite transaction ends.  A request that fails fires an
    error event; no handler of db.js calls [preventDefault], so the
    transaction aborts and every change is reverted, the key
    generators included.  An exception of the script itself does not
    abort: the requests placed so far are committed. *)
Inductive TxOutcome (S A : Type) :=
| Completed (s : S) (a : A)
| RequestFailed (e : JsError)
| Thrown (s : S) (e : JsError).
Arguments Completed {S A} s a.
Arguments RequestFailed {S A} e.
Arguments Thrown {S A} s e.

(** The scope's state after the transaction, and what the promise of
    the caller settles to. *)
Definition commit {S A} (before : S) (o : TxOutcome S A) : S * Settled A :=
  match o with
  | Completed s a => (s, Resolved a)
  | RequestFailed e => (before, Rejected e)
  | Thrown s e => (s, Rejected e)
  end.

End Idb.
Import Idb.

(** ** static/db.js *)

Module Db.

(** A row of [substations], without its [id]. *)
Module Substation.
Record t := mk { name : jsstring; createdAt : timestamp }.
(** The index [name] is unique. *)
Definition sameName (a b : t) : bool := string_eqb (name a) (name b).
End Substation.

(** A row of [machines], without its [id]. *)
Module Machine.
Record t := mk {
  substationId : N;
  positionX : Z;
  positionY : Z;
  name : jsstring;
  info : jsstring;
  imageId : option N;
  updatedAt : timestamp;
  createdAt : timestamp
}.
End Machine.

(** A row of [images], without its [id]. *)
Module Image.
Record t := mk {
  machineId : option N;
  data : jsstring;
  timestamp : Js.timestamp
}.
End Image.

(** A row of [syncRecords], without its [id]; [data] is kept as the
    caller gave it. *)
Module SyncRecord.
Record t := mk {
  type : jsstring;
  data : jsstring;
  timestamp : Js.timestamp
}.
End SyncRecord.

Record DB := mkDB {
  substations : ObjectStore Substation.t;
  machines : ObjectStore Machine.t;
  images : ObjectStore Image.t;
  syncRecords : ObjectStore SyncRecord.t
}.

(** The database after [onupgradeneeded]. *)
Definition initDB : DB := mkDB created created created created.

Definition DB_VERSION : N := 1.

(** *** Substations *)

Definition getAllSubstations (db : DB) : list (Stored Substation.t) :=
  getAll (substations db).

(** [addSubstation(name)], with the clock reading of [createdAt]. *)
Definition addSubstation (db : DB) (name : jsstring) (now : timestamp)
  : DB * Settled (Stored Substation.t) :=
  let substation := Substation.mk (trim name) now in
  let request :=
    match add Substation.sameName (substations db) substation with
    | Some (o, key) => Completed o (mkStored key substation)
    | None => RequestFailed ConstraintError
    end in
  let '(o, settled) := commit (substations db) request in
  (mkDB o (machines db) (images db) (syncRecords db),
   match settled with
   | Rejected ConstraintError => Rejected NameExists
   | other => other
   end).

(** *** Machines *)

(** [index.getAll(substationId)] on the index [substationId]. *)
Definition getMachinesBySubstationId (db : DB) (substationId : N)
  : list (Stored Machine.t) :=
  filter (fun m => Machine.substationId (fields m) =? substationId)
         (getAll (machines db)).

Definition getMachineByPosition (db : DB) (substationId : N)
  (positionX positionY : Z) : option (Stored Machine.t) :=
  find (fun m => (Machine.positionX (fields m) =? positionX)%Z
                 && (Machine.positionY (fields m) =? positionY)%Z)
       (getMachinesBySubstationId db substationId).

(** The three readings of the clock that [saveMachine] can take: the
    image's [timestamp], the machine's [updatedAt] and, for a new
    machine, its [createdAt]. *)
Record Clock := mkClock {
  atImage : timestamp;
  atUpdated : timestamp;
  atCreated : timestamp
}.

(** [saveMachine(substationId, positionX, positionY, name, info,
    imageData)].  The body of the promise runs to its end before any
    request's [onsuccess]: [machineData] is built while the variable
    [imageId] still holds its initial null, and the assignment in
    [imageRequest.onsuccess] comes after [machineData] was built.  The
    image record takes [existingMachine?.id], undefined for a new
    machine. *)
Definition saveMachine (db : DB) (substationId : N)
  (positionX positionY : Z) (name info imageData : option jsstring)
  (clock : Clock) : DB * Settled (Stored Machine.t) :=
  let existingMachine :=
    getMachineByPosition db substationId positionX positionY in
  let imageId : option N := None in
  let imageRequest :=
    if truthyString imageData then
      option_map fst
        (add noIndex (images db)
             (Image.mk (option_map id existingMachine)
                       (orEmpty imageData) (atImage clock)))
    else Some (images db) in
  let machineData createdAt :=
    Machine.mk substationId positionX positionY
               (orEmpty name) (orEmpty info) imageId
               (atUpdated clock) createdAt in
  let request :=
    match imageRequest with
    | None => RequestFailed ConstraintError
    | Some imageStore =>
        match existingMachine with
        | Some existing =>
            let data := machineData (Machine.createdAt (fields existing)) in
            let '(machineStore, machineId) :=
              put (machines db) (id existing) data in
            Completed (machineStore, imageStore) (mkStored machineId data)
        | None =>
            let data := machineData (atCreated clock) in
            match add noIndex (machines db) data with
            | Some (machineStore, machineId) =>
                Completed (machineStore, imageStore)
                          (mkStored machineId data)
            | None => RequestFailed ConstraintError
            end
        end
    end in
  let '((machineStore, imageStore), settled) :=
    commit (machines db, images db) request in
  (mkDB (substations db) machineStore imageStore (syncRecords db), settled).

(** [deleteMachine(machineId)] *)
Definition deleteMachine (db : DB) (machineId : N) : DB * Settled bool :=
  let machine := get (machines db) machineId in
  let imageStore :=
    match machine with
    | Some m =>
        if truthyNumber (Machine.imageId (fields m))
        then match Machine.imageId (fields m) with
             | Some imageId => delete (images db) imageId
             | None => images db
             end
        else images db
    | None => images db
    end in
  let machineStore := delete (machines db) machineId in
  (mkDB (substations db) machineStore imageStore (syncRecords db),
   Resolved true).

(** [deleteMachinesBySubstationId(substationId)]: the list is read
    once, then the machines are deleted one transaction each. *)
Definition deleteMachinesBySubstationId (db : DB) (substationId : N) : DB :=
  fold_left (fun db machine => fst (deleteMachine db (id machine)))
            (getMachinesBySubstationId db substationId) db.

(** [deleteSubstation(id)] *)
Definition deleteSubstation (db : DB) (id : N) : DB * Settled bool :=
  let db := deleteMachinesBySubstationId db id in
  (mkDB (delete (substations db) id) (machines db) (images db)
        (syncRecords db),
   Resolved true).

(** *** Sync records *)

Definition addSyncRecord (db : DB) (type data : jsstring) (now : timestamp)
  : DB * Settled N :=
  match add noIndex (syncRecords db) (SyncRecord.mk type data now) with
  | Some (o, key) =>
      (mkDB (substations db) (machines db) (images db) o, Resolved key)
  | None => (db, Rejected ConstraintError)
  end.

Definition getAllSyncRecords (db : DB) : list (Stored SyncRecord.t) :=
  getAll (syncRecords db).

Definition clearSyncRecords (db : DB) : DB * Settled bool :=
  (mkDB (substations db) (machines db) (images db)
        (clear (syncRecords db)),
   Resolved true).

(** *** Export and import *)

(** The exported object.  A list is absent when the property is
    missing or cannot be iterated, as in a snapshot received from a
    peer. *)
Module Snapshot.
Record t := mk {
  version : N;
  exportDate : timestamp;
  substations : option (list (Stored Substation.t));
  machines : option (list (Stored Machine.t))
}.
End Snapshot.

(** [exportAllData()]: the machines are collected substation by
    substation. *)
Definition exportAllData (db : DB) (now : timestamp) : Snapshot.t :=
  let substations := getAllSubstations db in
  let machines :=
    flat_map (fun substation => getMachinesBySubstationId db (id substation))
             substations in
  Snapshot.mk DB_VERSION now (Some substations) (Some machines).

(** One loop of [importData]: each row is copied, its [id] deleted,
    and added; the first request that fails ends the loop. *)
Fixpoint addEach {V} (unique : V -> V -> bool) (o : ObjectStore V)
  (rows : list (Stored V)) : option (ObjectStore V) :=
  match rows with
  | [] => Some o
  | row :: rows' =>
      match add unique o (fields row) with
      | Some (o', _) => addEach unique o' rows'
      | None => None
      end
  end.

(** The stores of the transaction of [importData]. *)
Definition ImportScope : Type :=
  ObjectStore Substation.t * ObjectStore Machine.t * ObjectStore Image.t.

Definition importTransaction (data : Snapshot.t) (scope : ImportScope)
  : TxOutcome ImportScope bool :=
  let '(substationStore, machineStore, imageStore) := scope in
  let substationStore := clear substationStore in
  let machineStore := clear machineStore in
  let imageStore := clear imageStore in
  match Snapshot.substations data with
  | None => Thrown (substationStore, machineStore, imageStore) TypeError
  | Some substations =>
      match addEach Substation.sameName substationStore substations with
      | None => RequestFailed ConstraintError
      | Some substationStore =>
          match Snapshot.machines data with
          | None =>
              Thrown (substationStore, machineStore, imageStore) TypeError
          | Some machines =>
              match addEach noIndex machineStore machines with
              | None => RequestFailed ConstraintError
              | Some machineStore =>
                  Completed (substationStore, machineStore, imageStore) true
              end
          end
      end
  end.

(** [importData(data)] *)
Definition importData (db : DB) (data : Snapshot.t) : DB * Settled bool :=
  let '((substationStore, machineStore, imageStore), settled) :=
    commit (substations db, machines db, images db)
           (importTransaction data (substations db, machines db, images db)) in
  (mkDB substationStore machineStore imageStore (syncRecords db), settled).

(** *** Notions used to state the properties *)

(** The database after a substation was added. *)
Definition withSubstation (db : DB) (row : Substation.t) : DB :=
  mkDB (mkStore (records (substations db)
                   ++ [mkStored (current (substations db)) row])
                (current (substations db) + 1))
       (machines db) (images db) (syncRecords db).

(** A substation of that name is stored. *)
Definition hasName (db : DB) (name : jsstring) : bool :=
  existsb (fun r => string_eqb (Substation.name (fields r)) name)
          (records (substations db)).

(** The test of a machine's substation and cell: the filter of the
    index followed by the predicate of [find]. *)
Definition atCell (substationId : N) (positionX positionY : Z)
  (m : Stored Machine.t) : bool :=
  (Machine.substationId (fields m) =? substationId)
  && ((Machine.positionX (fields m) =? positionX)%Z
      && (Machine.positionY (fields m) =? positionY)%Z).

(** The machines of a substation at one cell of its grid. *)
Definition machinesAt (db : DB) (substationId : N) (positionX positionY : Z)
  : list (Stored Machine.t) :=
  filter (fun m => (Machine.positionX (fields m) =? positionX)%Z
                   && (Machine.positionY (fields m) =? positionY)%Z)
         (getMachinesBySubstationId db substationId).

(** Some [add] request of [importData] fails. *)
Definition insertFails (db : DB) (data : Snapshot.t) : bool :=
  match Snapshot.substations data with
  | Some rows =>
      match addEach Substation.sameName (clear (substations db)) rows with
      | None => true
      | Some _ =>
          match Snapshot.machines data with
          | Some rows =>
              match addEach noIndex (clear (machines db)) rows with
              | None => true
              | Some _ => false
              end
          | None => false
          end
      end
  | None => false
  end.

(** The rows of a snapshot as [addEach] stores them: in their order,
    with the keys the generator gives from [key] on. *)
Fixpoint renumber {V} (key : N) (rows : list (Stored V)) : list (Stored V) :=
  match rows with
  | [] => []
  | row :: rows' => mkStored key (fields row) :: renumber (key + 1) rows'
  end.

(** The names of stored substations, in key order. *)
Definition names (rows : list (Stored Substation.t)) : list jsstring :=
  map (fun r => Substation.name (fields r)) rows.

(** What the platform maintains of a database: the keys of every store
    are well formed, and the unique index [name] holds. *)
Record wfDB (db : DB) : Prop := mkWfDB {
  wfSubstations : wf (substations db);
  wfMachines : wf (machines db);
  wfImages : wf (images db);
  wfSyncRecords : wf (syncRecords db);
  uniqueNames : NoDup (names (records (substations db)))
}.

(** The test of the index [substationId]. *)
Definition ofSubstation (substationId : N) (m : Stored Machine.t) : bool :=
  Machine.substationId (fields m) =? substationId.

(** Every machine belongs to a stored substation. *)
Definition noOrphan (db : DB) : Prop :=
  forall m, In m (records (machines db)) ->
    In (Machine.substationId (fields m)) (keys (substations db)).

(** The rows without their identifiers: what [listSites] and
    [listDevices] show when identifiers are ignored. *)
Definition siteRows (db : DB) : list Substation.t :=
  map fields (getAllSubstations db).

Definition deviceRows (db : DB) (substationId : N) : list Machine.t :=
  map fields (getMachinesBySubstationId db substationId).

(** *** A database used in examples

    Two substations were added, then a machine saved in each. *)
Definition twoSites : DB :=
  let db := fst (addSubstation initDB (str "North") 1700000000000) in
  let db := fst (addSubstation db (str "South") 1700000000100) in
  let db := fst (saveMachine db 1 2 3 (Some (str "T1")) None None
                   (mkClock 1700000001000 1700000001000 1700000001000)) in
  fst (saveMachine db 2 0 0 (Some (str "T2")) (Some (str "ok")) None
         (mkClock 1700000002000 1700000002000 1700000002000)).

(** The state after one round trip: the substations have new keys, the
    machines still name the old ones. *)
Definition twoSitesImported : DB :=
  fst (importData twoSites (exportAllData twoSites 1700000003000)).

(** *** Machine details *)

(** The property [imageData] of the object that [getMachine] resolves
    to: not set, null, or the data of the image. *)
Inductive ImageData :=
| NotSet
| Null
| Data (data : jsstring).

(** [getMachine(machineId)]: nothing for a key that is not stored; the
    image is looked up for a truthy [imageId] only, and
    [result?.data || null] is null for a missing image or empty data. *)
Definition getMachine (db : DB) (machineId : N)
  : option (Stored Machine.t * ImageData) :=
  match get (machines db) machineId with
  | Some machine =>
      if truthyNumber (Machine.imageId (fields machine)) then
        match Machine.imageId (fields machine) with
        | Some imageId =>
            match get (images db) imageId with
            | Some image =>
                if truthyString (Some (Image.data (fields image)))
                then Some (machine, Data (Image.data (fields image)))
                else Some (machine, Null)
            | None => Some (machine, Null)
            end
        | None => Some (machine, NotSet)
        end
      else Some (machine, NotSet)
  | None => None
  end.

(** *** Sequences of calls *)

(** A call of a function of db.js that writes, with its arguments and
    the clock readings it takes. *)
Inductive Call :=
| AddSubstation (name : jsstring) (now : timestamp)
| SaveMachine (substationId : N) (positionX positionY : Z)
              (name info imageData : option jsstring) (clock : Clock)
| DeleteMachine (machineId : N)
| DeleteSubstation (id : N)
| ImportData (data : Snapshot.t)
| AddSyncRecord (type data : jsstring) (now : timestamp)
| ClearSyncRecords.

(** The database after the call has settled. *)
Definition run (db : DB) (call : Call) : DB :=
  match call with
  | AddSubstation name now => fst (addSubstation db name now)
  | SaveMachine s x y name info imageData clock =>
      fst (saveMachine db s x y name info imageData clock)
  | DeleteMachine machineId => fst (deleteMachine db machineId)
  | DeleteSubstation id => fst (deleteSubstation db id)
  | ImportData data => fst (importData db data)
  | AddSyncRecord type data now => fst (addSyncRecord db type data now)
  | ClearSyncRecords => fst (clearSyncRecords db)
  end.

Definition runAll (db : DB) (calls : list Call) : DB :=
  fold_left run calls db.

(** The call of [addSyncRecord] that stores the given row. *)
Definition logCall (row : SyncRecord.t) : Call :=
  AddSyncRecord (SyncRecord.type row) (SyncRecord.data row)
                (SyncRecord.timestamp row).

Definition isImport (call : Call) : bool :=
  match call with ImportData _ => true | _ => false end.

(** The machine names the image of key [k] by a truthy [imageId]: the
    image that [deleteMachine] deletes with the machine. *)
Definition namesImage (k : N) (m : Stored Machine.t) : bool :=
  match Machine.imageId (fields m) with
  | Some i => negb (i =? 0) && (i =? k)
  | None => false
  end.

Definition namedBy (l : list (Stored Machine.t)) (k : N) : bool :=
  existsb (namesImage k) l.

(** A database in which machines of two substations name one image: a
    snapshot with such rows was imported into the database just
    created, then a machine was saved with an image, which got the key
    1 that both rows name. *)
Definition sharedImage : DB :=
  let data :=
    Snapshot.mk 1 1700000000000
      (Some [mkStored 1 (Substation.mk (str "North") 1700000000000);
             mkStored 2 (Substation.mk (str "South") 1700000000100)])
      (Some [mkStored 1 (Machine.mk 1 0 0 (str "T1") [] (Some 1)
                                    1700000001000 1700000001000);
             mkStored 2 (Machine.mk 2 0 0 (str "T2") [] (Some 1)
                                    1700000002000 1700000002000)]) in
  runAll initDB
    [ImportData data;
     SaveMachine 2 5 5 (Some (str "T3")) None
                 (Some (str "data:image/jpeg;base64,AAAA"))
                 (mkClock 1700000003000 1700000003000 1700000003000)].

(** No machine names an image. *)
Definition noImageId (db : DB) : Prop :=
  forall m, In m (records (machines db)) ->
    Machine.imageId (fields m) = None.

End Db.

(** ** static/sync.js *)

Module Sync.
Import Db.

Definition SYNC_PORT : N := 51234.

(** A message on a data channel, [{ type, data }]. *)
Inductive Message :=
| SyncData (data : Snapshot.t)
| SyncRequest
| Ping
| Pong.

(** [RTCDataChannel.readyState] *)
Inductive ReadyState := connecting | open | closing | closed.

Definition isOpen (s : ReadyState) : bool :=
  match s with open => true | _ => false end.

(** A data channel: its state and the messages handed to its [send],
    oldest first. *)
Record DataChannel := mkChannel {
  readyState : ReadyState;
  sent : list Message
}.

(** The fields of a [SyncConnection]; the peer connection itself is
    the transport and is left out. *)
Record SyncConnection := mkConnection {
  peerId : jsstring;
  isInitiator : bool;
  connected : bool;
  dataChannel : option DataChannel
}.

(** [new SyncConnection(peerId, isInitiator)], up to the first [await]
    of [init]: an initiator has created its channel, not yet open. *)
Definition newSyncConnection (peerId : jsstring) (isInitiator : bool)
  : SyncConnection :=
  mkConnection peerId isInitiator false
               (if isInitiator then Some (mkChannel connecting []) else None).

(** [dataChannel.onopen] and [dataChannel.onclose] *)
Definition onopen (c : SyncConnection) : SyncConnection :=
  mkConnection (peerId c) (isInitiator c) true
    (option_map (fun ch => mkChannel open (sent ch)) (dataChannel c)).

Definition onclose (c : SyncConnection) : SyncConnection :=
  mkConnection (peerId c) (isInitiator c) false
    (option_map (fun ch => mkChannel closed (sent ch)) (dataChannel c)).

(** [SyncConnection.send(data)] *)
Definition send (c : SyncConnection) (data : Message) : SyncConnection :=
  match dataChannel c with
  | Some ch =>
      if isOpen (readyState ch)
      then mkConnection (peerId c) (isInitiator c) (connected c)
                        (Some (mkChannel (readyState ch) (sent ch ++ [data])))
      else c
  | None => c
  end.

(** A message posted on the BroadcastChannel of [LocalSyncManager]. *)
Inductive BusMessage :=
| BusSyncRequest (from : jsstring)
| BusSyncData (from : jsstring) (data : Snapshot.t).

(** A [LocalSyncManager]: the messages posted on its channel. *)
Record LocalSyncManager := mkManager { posted : list BusMessage }.

(** The argument of a call of [onStatusChange]. *)
Inductive StatusChange :=
| StatusReady
| StatusHosting (ip : jsstring) (port : N) (deviceId : jsstring)
| StatusConnecting (host : jsstring)
| StatusDisconnected.

(** The module-level variables of sync.js, and the calls of
    [onStatusChange] made so far. *)
Record State := mkState {
  syncClients : list SyncConnection;
  localDeviceId : jsstring;
  isHosting : bool;
  isConnected : bool;
  localSyncManager : option LocalSyncManager;
  statusChanges : list StatusChange
}.

(** The variables when the script has loaded and [initSync] has run. *)
Definition initSync (deviceId : jsstring) : State :=
  mkState [] deviceId false false None [StatusReady].

(** [LocalSyncManager.broadcast(data)] *)
Definition broadcast (deviceId : jsstring) (m : LocalSyncManager)
  (data : Snapshot.t) : LocalSyncManager :=
  mkManager (posted m ++ [BusSyncData deviceId data]).

(** [startBroadcast()], with the address found by [getLocalIP]. *)
Definition startBroadcast (st : State) (ip : jsstring)
  : State * option (jsstring * N * jsstring) :=
  if isHosting st then (st, None)
  else
    (mkState (syncClients st) (localDeviceId st) true true
             (Some (mkManager []))
             (statusChanges st
                ++ [StatusHosting ip SYNC_PORT (localDeviceId st)]),
     Some (ip, SYNC_PORT, localDeviceId st)).

(** [stopBroadcast()] *)
Definition stopBroadcast (st : State) : State :=
  mkState (syncClients st) (localDeviceId st) false false None
          (statusChanges st ++ [StatusDisconnected]).

(** [requestSyncFrom(hostIp, hostPort)].  The constructor starts the
    asynchronous [init] and returns, and the observer only records:
    nothing in the [try] block throws, the [catch] is not entered. *)
Definition requestSyncFrom (st : State) (hostIp : jsstring) (hostPort : N)
  : State * bool :=
  if isHosting st then (st, false)
  else
    let connection := newSyncConnection hostIp true in
    (mkState (syncClients st ++ [connection]) (localDeviceId st)
             (isHosting st) true (localSyncManager st)
             (statusChanges st ++ [StatusConnecting hostIp]),
     true).

(** [performSync()], with the clock reading of the export. *)
Definition performSync (st : State) (db : DB) (now : timestamp)
  : State * bool :=
  if negb (isConnected st) && negb (isHosting st) then (st, false)
  else
    let data := exportAllData db now in
    let manager :=
      match localSyncManager st with
      | Some m =>
          if isHosting st then Some (broadcast (localDeviceId st) m data)
          else Some m
      | None => None
      end in
    let clients :=
      map (fun client =>
             if connected client then send client (SyncData data)
             else client)
          (syncClients st) in
    (mkState clients (localDeviceId st) (isHosting st) (isConnected st)
             manager (statusChanges st),
     true).

(** *** Notions used to state the properties *)

(** The channel of a connection exists and is open: the test of
    [send]. *)
Definition channelOpen (c : SyncConnection) : bool :=
  match dataChannel c with
  | Some ch => isOpen (readyState ch)
  | None => false
  end.

(** A session is open when [onopen] has set [connected] and the
    channel is still open: the two tests a message of [performSync]
    passes. *)
Definition sessionOpen (c : SyncConnection) : bool :=
  connected c && channelOpen c.

(** The connection after one more message was handed to its channel. *)
Definition delivered (c : SyncConnection) (m : Message) : SyncConnection :=
  mkConnection (peerId c) (isInitiator c) (connected c)
    (option_map (fun ch => mkChannel (readyState ch) (sent ch ++ [m]))
                (dataChannel c)).

(** While hosting there is a [LocalSyncManager]. *)
Definition hostingHasManager (st : State) : Prop :=
  isHosting st = true -> localSyncManager st <> None.

(** *** Device identifier *)

(** [generateDeviceId()] over the item [deviceId] of localStorage (absent
    when never set).  [random] is [Math.random().toString(36).substr(2, 9)]
    and [now] is [Date.now()].  The result is the storage and the
    identifier. *)
Definition generateDeviceId (item : option jsstring) (random : jsstring)
  (now : N) : option jsstring * jsstring :=
  if truthyString item then (item, orEmpty item)
  else
    let newId := str "device_" ++ random ++ str "_"
                 ++ str (NilZero.string_of_uint (N.to_uint now)) in
    (Some newId, newId).

(** *** Messages received on a data channel *)

(** A call of one of the callbacks that [setSyncCallbacks] sets. *)
Inductive Callback :=
| OnPeerConnected (peerId : jsstring)
| OnPeerDisconnected (peerId : jsstring)
| OnSyncRequest (from : jsstring)
| OnSyncComplete (success : bool) (error : option JsError).

(** The clock readings taken while a message is handled: by the export,
    by the object [{ from, timestamp }] and by [addSyncRecord]. *)
Record Readings := mkReadings {
  atExport : timestamp;
  atReceipt : timestamp;
  atRecord : timestamp
}.

Section Receive.

(** The object [{ from, timestamp }] as the store keeps it. *)
Variable receipt : jsstring -> timestamp -> jsstring.

(** [SyncConnection.handleSyncData(data)] *)
Definition handleSyncData (c : SyncConnection) (db : DB) (data : Snapshot.t)
  (clock : Readings) : DB * list Callback :=
  match importData db data with
  | (db, Resolved _) =>
      match addSyncRecord db (str "receive")
                          (receipt (peerId c) (atReceipt clock))
                          (atRecord clock) with
      | (db, Resolved _) => (db, [OnSyncComplete true None])
      | (db, Rejected error) => (db, [OnSyncComplete false (Some error)])
      end
  | (db, Rejected error) => (db, [OnSyncComplete false (Some error)])
  end.

(** [SyncConnection.sendSyncData()] *)
Definition sendSyncData (c : SyncConnection) (db : DB) (now : timestamp)
  : SyncConnection :=
  send c (SyncData (exportAllData db now)).

(** [SyncConnection.handleMessage(message)]; a message of another type,
    [pong] among them, matches no case. *)
Definition handleMessage (c : SyncConnection) (db : DB) (message : Message)
  (clock : Readings) : SyncConnection * DB * list Callback :=
  match message with
  | SyncData data =>
      let '(db, callbacks) := handleSyncData c db data clock in
      (c, db, callbacks)
  | SyncRequest => (sendSyncData c db (atExport clock), db, [])
  | Ping => (send c Pong, db, [])
  | Pong => (c, db, [])
  end.

End Receive.

(** [SyncConnection.close()].  The peer connection exists since the
    constructor; closing it sets every channel of it to closed. *)
Definition close (c : SyncConnection) : SyncConnection :=
  mkConnection (peerId c) (isInitiator c) (connected c)
    (option_map (fun ch => mkChannel closed (sent ch)) (dataChannel c)).

(** *** Messages received on the broadcast channel *)

(** A message that [LocalSyncManager.handleMessage] receives. *)
Inductive Signal :=
| Offer (from : jsstring)
| Answer (from : jsstring)
| IceCandidate (from : jsstring)
| Bus (message : BusMessage).

(** [LocalSyncManager.handleMessage(message)]: [handleAnswer],
    [handleIceCandidate] and [broadcastSyncData] have empty bodies, and
    [sync-data] matches no case. *)
Definition managerHandleMessage (m : LocalSyncManager) (message : Signal)
  : LocalSyncManager * list Callback :=
  match message with
  | Offer from => (m, [OnSyncRequest from])
  | Answer _ => (m, [])
  | IceCandidate _ => (m, [])
  | Bus (BusSyncRequest _) => (m, [])
  | Bus (BusSyncData _ _) => (m, [])
  end.

(** [LocalSyncManager.requestSync()] *)
Definition requestSync (deviceId : jsstring) (m : LocalSyncManager)
  : LocalSyncManager :=
  mkManager (posted m ++ [BusSyncRequest deviceId]).

(** *** Sequences of calls and events *)

Fixpoint updateAt {A} (f : A -> A) (i : nat) (l : list A) {struct l}
  : list A :=
  match l, i with
  | [], _ => []
  | a :: l', O => f a :: l'
  | a :: l', S i' => a :: updateAt f i' l'
  end.

(** A call of a function of the coordinator, or the [open] or [close]
    event of the channel of a tracked connection. *)
Inductive Action :=
| StartBroadcast (ip : jsstring)
| StopBroadcast
| RequestSyncFrom (hostIp : jsstring) (hostPort : N)
| PerformSync (db : DB) (now : timestamp)
| ChannelOpened (client : nat)
| ChannelClosed (client : nat).

Definition withClients (st : State) (clients : list SyncConnection) : State :=
  mkState clients (localDeviceId st) (isHosting st) (isConnected st)
          (localSyncManager st) (statusChanges st).

Definition act (st : State) (a : Action) : State :=
  match a with
  | StartBroadcast ip => fst (startBroadcast st ip)
  | StopBroadcast => stopBroadcast st
  | RequestSyncFrom hostIp hostPort => fst (requestSyncFrom st hostIp hostPort)
  | PerformSync db now => fst (performSync st db now)
  | ChannelOpened i => withClients st (updateAt onopen i (syncClients st))
  | ChannelClosed i => withClients st (updateAt onclose i (syncClients st))
  end.

Definition actAll (st : State) (actions : list Action) : State :=
  fold_left act actions st.

(** What holds of the variables after any calls and events. *)
Definition coordinated (st : State) : Prop :=
  (isHosting st = true <-> localSyncManager st <> None) /\
  (isHosting st = true -> isConnected st = true) /\
  (isConnected st = true -> isHosting st = true \/ syncClients st <> []).

End Sync.

(** * Properties of object stores *)

Module StoreFacts.

Example trim_ascii : trim (str "  Dock 4 ") = str "Dock 4".
Proof. reflexivity. Qed.

(** An ideographic space before and a no-break space after are
    trimmed; a space inside the name stays. *)
Example trim_unicode : trim [0x3000; 0x53D8; 0x20; 0x7AD9; 0xA0] = [0x53D8; 0x20; 0x7AD9].
Proof. reflexivity. Qed.

Example trim_blank : trim (str "   ") = [].
Proof. reflexivity. Qed.

Lemma string_eqb_eq a b : string_eqb a b = true <-> a = b.
Proof.
  unfold string_eqb. destruct (list_eq_dec N.eq_dec a b); split;
    congruence.
Qed.

Lemma string_eqb_neq a b : string_eqb a b = false <-> a <> b.
Proof.
  unfold string_eqb. destruct (list_eq_dec N.eq_dec a b); split;
    congruence.
Qed.

Section Store.
Context {V : Type}.
Implicit Types (o : ObjectStore V) (l : list (Stored V)).

Lemma existsb_noIndex l (v : V) :
  existsb (fun r => noIndex (fields r) v) l = false.
Proof. induction l; simpl; auto. Qed.

(** In a store without unique index, [add] succeeds. *)
Lemma add_noIndex o v :
  add noIndex o v
  = Some (mkStore (records o ++ [mkStored (current o) v]) (current o + 1),
          current o).
Proof. unfold add. rewrite existsb_noIndex. reflexivity. Qed.

Lemma find_filter (p q : Stored V -> bool) l :
  find q (filter p l) = find (fun r => p r && q r) l.
Proof.
  induction l as [|a l IH]; simpl; [reflexivity|].
  destruct (p a); simpl; [|exact IH].
  destruct (q a); [reflexivity|exact IH].
Qed.

Lemma filter_filter (p q : Stored V -> bool) l :
  filter q (filter p l) = filter (fun r => p r && q r) l.
Proof.
  induction l as [|a l IH]; simpl; [reflexivity|].
  destruct (p a); simpl; [|exact IH].
  destruct (q a); [f_equal|]; exact IH.
Qed.

Lemma find_none_filter (p : Stored V -> bool) l :
  find p l = None -> filter p l = [].
Proof.
  induction l as [|a l IH]; simpl; [reflexivity|].
  destruct (p a); [discriminate|exact IH].
Qed.

Lemma find_some_in (p : Stored V -> bool) l e :
  find p l = Some e -> In e l /\ p e = true.
Proof. apply find_some. Qed.

(** A key smaller than every key of a sorted list is not in it. *)
Lemma sorted_head_lt (r : Stored V) l e :
  StronglySorted N.lt (map id (r :: l)) -> In e l -> id r < id e.
Proof.
  simpl. intros H Hin. apply StronglySorted_inv in H.
  destruct H as [_ H]. rewrite Forall_forall in H.
  apply H. apply in_map. exact Hin.
Qed.

(** [put] on a key of the store replaces the record in place. *)
Lemma replaceOrInsert_keys k v l :
  StronglySorted N.lt (map id l) -> In k (map id l) ->
  map id (replaceOrInsert k v l) = map id l.
Proof.
  induction l as [|r l IH]; intros Hs Hin; [destruct Hin|].
  simpl. destruct (N.eqb_spec k (id r)) as [->|Hne]; [reflexivity|].
  destruct Hin as [Hin|Hin]; [congruence|].
  apply in_map_iff in Hin. destruct Hin as [e [<- Hin]].
  pose proof (sorted_head_lt r l e Hs Hin) as Hlt.
  destruct (N.ltb_spec (id e) (id r)); [lia|].
  simpl. f_equal. apply IH.
  - simpl in Hs. apply StronglySorted_inv in Hs. tauto.
  - apply in_map. exact Hin.
Qed.

(** The record found first is the one [put] replaces, so the new
    record is found first when it passes the test. *)
Lemma find_replaceOrInsert (p : Stored V -> bool) l e v :
  StronglySorted N.lt (map id l) ->
  find p l = Some e -> p (mkStored (id e) v) = true ->
  find p (replaceOrInsert (id e) v l) = Some (mkStored (id e) v).
Proof.
  induction l as [|r l IH]; intros Hs Hf Hp; [discriminate|].
  simpl in Hf. simpl. destruct (p r) eqn:Er.
  - injection Hf as ->. rewrite N.eqb_refl. simpl. rewrite Hp. reflexivity.
  - apply find_some_in in Hf as Hin. destruct Hin as [Hin _].
    pose proof (sorted_head_lt r l e Hs Hin) as Hlt.
    destruct (N.eqb_spec (id e) (id r)); [lia|].
    destruct (N.ltb_spec (id e) (id r)); [lia|].
    simpl. rewrite Er. apply IH; [|exact Hf|exact Hp].
    simpl in Hs. apply StronglySorted_inv in Hs. tauto.
Qed.

Lemma filter_replaceOrInsert_length (p : Stored V -> bool) l e v :
  StronglySorted N.lt (map id l) ->
  find p l = Some e -> p (mkStored (id e) v) = true ->
  List.length (filter p (replaceOrInsert (id e) v l))
  = List.length (filter p l).
Proof.
  induction l as [|r l IH]; intros Hs Hf Hp; [discriminate|].
  simpl in Hf. simpl. destruct (p r) eqn:Er.
  - injection Hf as ->. rewrite N.eqb_refl. simpl. rewrite Hp. reflexivity.
  - apply find_some_in in Hf as Hin. destruct Hin as [Hin _].
    pose proof (sorted_head_lt r l e Hs Hin) as Hlt.
    destruct (N.eqb_spec (id e) (id r)); [lia|].
    destruct (N.ltb_spec (id e) (id r)); [lia|].
    simpl. rewrite Er. apply IH; [|exact Hf|exact Hp].
    simpl in Hs. apply StronglySorted_inv in Hs. tauto.
Qed.

Lemma find_app_new (p : Stored V -> bool) l r :
  find p l = None -> p r = true -> find p (l ++ [r]) = Some r.
Proof.
  induction l as [|a l IH]; simpl; intros Hf Hp.
  - rewrite Hp. reflexivity.
  - destruct (p a); [discriminate|]. apply IH; assumption.
Qed.

(** A generated key extends a sorted list of keys. *)
Lemma sorted_app_current (ks : list N) k :
  StronglySorted N.lt ks -> Forall (fun x => x < k) ks ->
  StronglySorted N.lt (ks ++ [k]).
Proof.
  induction ks as [|a ks IH]; intros Hs Hlt; simpl.
  - constructor; constructor.
  - apply StronglySorted_inv in Hs. destruct Hs as [Hs Ha].
    apply Forall_cons_iff in Hlt. destruct Hlt as [Hak Hlt].
    constructor; [apply IH; assumption|].
    apply Forall_app. split; [exact Ha|]. constructor; [exact Hak|constructor].
Qed.

Lemma get_none o k : get o k = None <-> ~ In k (keys o).
Proof.
  unfold get, keys. induction (records o) as [|r l IH]; simpl.
  - tauto.
  - destruct (N.eqb_spec (id r) k); [|tauto].
    split; [discriminate|]. intros H. exfalso. apply H. left. assumption.
Qed.

Lemma keys_delete o k x : In x (keys (delete o k)) <-> In x (keys o) /\ x <> k.
Proof.
  unfold keys, delete. simpl. rewrite !in_map_iff. split.
  - intros [r [<- Hin]]. apply filter_In in Hin. destruct Hin as [Hin Hne].
    split; [exists r; auto|].
    destruct (N.eqb_spec (id r) k); [discriminate|assumption].
  - intros [[r [<- Hin]] Hne]. exists r. split; [reflexivity|].
    apply filter_In. split; [exact Hin|].
    destruct (N.eqb_spec (id r) k); [contradiction|reflexivity].
Qed.

Lemma records_delete o k r :
  In r (records (delete o k)) <-> In r (records o) /\ id r <> k.
Proof.
  unfold delete. simpl. rewrite filter_In.
  destruct (N.eqb_spec (id r) k); simpl; split; intros [H1 H2];
    split; congruence.
Qed.

Lemma get_delete o k : get (delete o k) k = None.
Proof. apply get_none. rewrite keys_delete. tauto. Qed.

Lemma get_delete_other o k k' :
  k' <> k -> get (delete o k) k' = get o k'.
Proof.
  intros Hne. unfold get, delete. simpl.
  induction (records o) as [|r l IH]; simpl; [reflexivity|].
  destruct (N.eqb_spec (id r) k) as [E|E]; simpl.
  - destruct (N.eqb_spec (id r) k'); [congruence|exact IH].
  - destruct (N.eqb_spec (id r) k'); [reflexivity|exact IH].
Qed.

Lemma sorted_NoDup (ks : list N) : StronglySorted N.lt ks -> NoDup ks.
Proof.
  induction 1 as [|a ks Hs IH Ha]; constructor; [|exact IH].
  intros Hin. rewrite Forall_forall in Ha. specialize (Ha a Hin). lia.
Qed.

(** Under distinct keys, [get] at the key of a record returns it. *)
Lemma get_in l r cur :
  NoDup (map id l) -> In r l -> get (mkStore l cur) (id r) = Some r.
Proof.
  unfold get. simpl. induction l as [|a l IH]; intros Hnd Hin;
    [destruct Hin|].
  simpl. inversion Hnd as [|? ? Hna Hnd']; subst.
  destruct Hin as [->|Hin]; [rewrite N.eqb_refl; reflexivity|].
  destruct (N.eqb_spec (id a) (id r)) as [E|E]; [|apply IH; assumption].
  exfalso. apply Hna. rewrite E. apply in_map. exact Hin.
Qed.

Lemma NoDup_map_filter {B} (f : Stored V -> B) (p : Stored V -> bool) l :
  NoDup (map f l) -> NoDup (map f (filter p l)).
Proof.
  induction l as [|a l IH]; simpl; intros Hnd; [constructor|].
  inversion Hnd as [|? ? Hna Hnd']; subst.
  destruct (p a); simpl; [|apply IH; exact Hnd'].
  constructor; [|apply IH; exact Hnd'].
  intros Hin. apply Hna. apply in_map_iff in Hin.
  destruct Hin as [r [E Hin]]. apply filter_In in Hin.
  rewrite <- E. apply in_map. tauto.
Qed.

Lemma wf_created : wf (@created V).
Proof. split; [constructor|]. split; [constructor|]. simpl. lia. Qed.

Lemma wf_add unique o v o' k :
  wf o -> add unique o v = Some (o', k) -> wf o'.
Proof.
  intros [Hs [Hb H1]]. unfold add.
  destruct (existsb _ _); [discriminate|]. intros [= <- <-].
  unfold wf, keys. simpl. rewrite map_app. simpl. split; [|split].
  - apply sorted_app_current; [exact Hs|].
    eapply Forall_impl; [|exact Hb]. simpl. intros; lia.
  - apply Forall_app. split.
    + eapply Forall_impl; [|exact Hb]. simpl. intros; lia.
    + constructor; [lia|constructor].
  - lia.
Qed.

Lemma wf_clear o : wf o -> wf (clear o).
Proof.
  intros [_ [_ H1]]. split; [constructor|]. split; [constructor|exact H1].
Qed.

Lemma sorted_filter (p : N -> bool) (ks : list N) :
  StronglySorted N.lt ks -> StronglySorted N.lt (filter p ks).
Proof.
  induction 1 as [|a ks Hs IH Ha]; simpl; [constructor|].
  destruct (p a); [|exact IH]. constructor; [exact IH|].
  rewrite Forall_forall in *. intros x Hx. apply Ha.
  apply filter_In in Hx. tauto.
Qed.

Lemma keys_delete_filter o k :
  keys (delete o k) = filter (fun x => negb (x =? k)) (keys o).
Proof.
  unfold keys, delete. simpl.
  induction (records o) as [|r l IH]; simpl; [reflexivity|].
  destruct (id r =? k); simpl; rewrite IH; reflexivity.
Qed.

Lemma wf_delete o k : wf o -> wf (delete o k).
Proof.
  intros [Hs [Hb H1]]. unfold wf. rewrite keys_delete_filter.
  split; [apply sorted_filter; exact Hs|]. split; [|exact H1].
  rewrite Forall_forall in *. intros x Hx. apply filter_In in Hx.
  apply Hb. tauto.
Qed.

Lemma wf_put_existing o k v :
  wf o -> In k (keys o) -> wf (fst (put o k v)).
Proof.
  intros [Hs [Hb H1]] Hin. unfold wf, keys, put. simpl.
  rewrite replaceOrInsert_keys by assumption.
  unfold keys in Hb. rewrite Forall_forall in Hb.
  pose proof (Hb k Hin) as Hk.
  destruct (N.leb_spec (current o) k); [lia|].
  split; [exact Hs|]. split; [|exact H1].
  apply Forall_forall. exact Hb.
Qed.

End Store.

End StoreFacts.

(** * Properties of the store of db.js *)

Module DbFacts.
Import Db StoreFacts.

(** ** addSubstation *)

Lemma addSubstation_cases db name now :
  addSubstation db name now
  = if hasName db (trim name) then (db, Rejected NameExists)
    else (withSubstation db (Substation.mk (trim name) now),
          Resolved (mkStored (current (substations db))
                             (Substation.mk (trim name) now))).
Proof.
  unfold addSubstation, add, hasName, Substation.sameName. simpl.
  destruct (existsb _ _); simpl; [destruct db|]; reflexivity.
Qed.

Lemma hasName_withSubstation db row name :
  hasName (withSubstation db row) name
  = hasName db name || string_eqb (Substation.name row) name.
Proof.
  unfold hasName, withSubstation. simpl. rewrite existsb_app. simpl.
  rewrite orb_false_r. reflexivity.
Qed.

(** C6: on a database that does not hold the trimmed [n1],
    [addSubstation n1] succeeds; a second call with [n2] is then
    rejected with the error of a name that exists when [n2] trims to
    what [n1] trims to, leaving the database as the first call left
    it, and succeeds when the trimmed names differ and the database
    did not hold the trimmed [n2] either. *)
Theorem addSubstation_twice (db : DB) (n1 n2 : jsstring)
  (t1 t2 : timestamp) :
  hasName db (trim n1) = false ->
  exists db1 s1,
    addSubstation db n1 t1 = (db1, Resolved s1) /\
    Substation.name (fields s1) = trim n1 /\
    (trim n2 = trim n1 ->
     addSubstation db1 n2 t2 = (db1, Rejected NameExists)) /\
    (trim n2 <> trim n1 -> hasName db (trim n2) = false ->
     exists db2 s2,
       addSubstation db1 n2 t2 = (db2, Resolved s2) /\
       Substation.name (fields s2) = trim n2 /\
       id s2 <> id s1).
Proof.
  intros H1. rewrite (addSubstation_cases db n1), H1.
  eexists _, _. split; [reflexivity|]. split; [reflexivity|]. split.
  - intros E. rewrite addSubstation_cases, hasName_withSubstation, E.
    cbn [Substation.name].
    assert (string_eqb (trim n1) (trim n1) = true) as ->
      by (apply string_eqb_eq; reflexivity).
    rewrite orb_true_r. reflexivity.
  - intros E H2. rewrite addSubstation_cases, hasName_withSubstation, H2.
    cbn [Substation.name].
    assert (string_eqb (trim n1) (trim n2) = false) as ->
      by (apply string_eqb_neq; congruence).
    eexists _, _. split; [reflexivity|]. split; [reflexivity|].
    simpl. lia.
Qed.

Lemma addSubstation_twice_witness :
  hasName initDB (trim (str " Dock 4 ")) = false /\
  trim (str "Dock 4") = trim (str " Dock 4 ") /\
  exists db1 s1,
    addSubstation initDB (str " Dock 4 ") 1700000000000 = (db1, Resolved s1) /\
    addSubstation db1 (str "Dock 4") 1700000000500
    = (db1, Rejected NameExists).
Proof.
  split; [reflexivity|]. split; [reflexivity|].
  destruct (addSubstation_twice initDB (str " Dock 4 ") (str "Dock 4")
              1700000000000 1700000000500 eq_refl)
    as [db1 [s1 [E1 [_ [E2 _]]]]].
  exists db1, s1. split; [exact E1|]. apply E2. reflexivity.
Defined.

(** ** saveMachine *)

Lemma getMachineByPosition_find db s x y :
  getMachineByPosition db s x y
  = find (atCell s x y) (records (machines db)).
Proof. apply find_filter. Qed.

Lemma machinesAt_filter db s x y :
  machinesAt db s x y = filter (atCell s x y) (records (machines db)).
Proof. apply filter_filter. Qed.

Lemma atCell_saved s x y k name info image updated created :
  atCell s x y
    (mkStored k (Machine.mk s x y name info image updated created)) = true.
Proof.
  unfold atCell. simpl. rewrite N.eqb_refl, !Z.eqb_refl. reflexivity.
Qed.

(** The image store is the only thing an image changes: the machine
    is stored and returned with a null [imageId]. *)
Lemma saveMachine_existing db s x y name info imageData clock e :
  getMachineByPosition db s x y = Some e ->
  let data := Machine.mk s x y (orEmpty name) (orEmpty info) None
                         (atUpdated clock) (Machine.createdAt (fields e)) in
  exists imageStore,
    saveMachine db s x y name info imageData clock
    = (mkDB (substations db) (fst (put (machines db) (id e) data))
            imageStore (syncRecords db),
       Resolved (mkStored (id e) data)).
Proof.
  intros He data. unfold saveMachine. rewrite He.
  destruct (truthyString imageData); [rewrite add_noIndex|];
    simpl; eexists; reflexivity.
Qed.

Lemma saveMachine_new db s x y name info imageData clock :
  getMachineByPosition db s x y = None ->
  let data := Machine.mk s x y (orEmpty name) (orEmpty info) None
                         (atUpdated clock) (atCreated clock) in
  exists imageStore,
    saveMachine db s x y name info imageData clock
    = (mkDB (substations db)
            (mkStore (records (machines db)
                        ++ [mkStored (current (machines db)) data])
                     (current (machines db) + 1))
            imageStore (syncRecords db),
       Resolved (mkStored (current (machines db)) data)).
Proof.
  intros He data. unfold saveMachine. rewrite He.
  destruct (truthyString imageData); [rewrite add_noIndex|];
    simpl; rewrite add_noIndex; simpl; eexists; reflexivity.
Qed.

(** After a call the machine returned is the one found at the cell,
    and the store of machines is well formed. *)
Lemma saveMachine_found db s x y name info imageData clock :
  wf (machines db) ->
  exists db1 m1,
    saveMachine db s x y name info imageData clock = (db1, Resolved m1) /\
    wf (machines db1) /\
    getMachineByPosition db1 s x y = Some m1 /\
    Machine.updatedAt (fields m1) = atUpdated clock /\
    Machine.name (fields m1) = orEmpty name /\
    Machine.info (fields m1) = orEmpty info /\
    Machine.imageId (fields m1) = None /\
    match getMachineByPosition db s x y with
    | Some e =>
        id m1 = id e /\
        Machine.createdAt (fields m1) = Machine.createdAt (fields e) /\
        keys (machines db1) = keys (machines db) /\
        List.length (machinesAt db1 s x y)
        = List.length (machinesAt db s x y)
    | None =>
        id m1 = current (machines db) /\
        Machine.createdAt (fields m1) = atCreated clock /\
        machinesAt db1 s x y = [m1]
    end.
Proof.
  intros Hwf. destruct (getMachineByPosition db s x y) as [e|] eqn:He.
  - destruct (saveMachine_existing db s x y name info imageData clock e He)
      as [imageStore E].
    rewrite getMachineByPosition_find in He.
    pose proof (find_some_in _ _ _ He) as [Hin _].
    assert (In (id e) (keys (machines db))) as Hk by (apply in_map; exact Hin).
    eexists _, _. split; [exact E|].
    rewrite getMachineByPosition_find, !machinesAt_filter.
    cbn [machines fields id Machine.updatedAt Machine.name Machine.info
         Machine.imageId Machine.createdAt].
    destruct Hwf as [Hs Hb].
    split; [apply wf_put_existing; [split; assumption|exact Hk]|].
    split; [apply find_replaceOrInsert;
            [exact Hs|exact He|apply atCell_saved]|].
    repeat (split; [reflexivity|]).
    split; [apply replaceOrInsert_keys; assumption|].
    apply filter_replaceOrInsert_length;
      [exact Hs|exact He|apply atCell_saved].
  - destruct (saveMachine_new db s x y name info imageData clock He)
      as [imageStore E].
    rewrite getMachineByPosition_find in He.
    eexists _, _. split; [exact E|].
    rewrite getMachineByPosition_find, !machinesAt_filter.
    cbn [machines fields id Machine.updatedAt Machine.name Machine.info
         Machine.imageId Machine.createdAt records].
    split; [eapply wf_add; [exact Hwf|apply add_noIndex]|].
    split; [apply find_app_new; [exact He|apply atCell_saved]|].
    repeat (split; [reflexivity|]).
    rewrite filter_app, (find_none_filter _ _ He). simpl.
    rewrite atCell_saved. reflexivity.
Qed.




(** Whatever image is passed, the machine returned has no [imageId]. *)
Lemma saveMachine_imageId_null db s x y name info imageData clock db' m :
  saveMachine db s x y name info imageData clock = (db', Resolved m) ->
  Machine.imageId (fields m) = None.
Proof.
  destruct (getMachineByPosition db s x y) as [e|] eqn:He.
  - destruct (saveMachine_existing db s x y name info imageData clock e He)
      as [i ->].
    intros [= <- <-]. reflexivity.
  - destruct (saveMachine_new db s x y name info imageData clock He)
      as [i ->].
    intros [= <- <-]. reflexivity.
Qed.

(** C4 fails on the code: a new machine saved with an image.  The
    image is stored under key 1 with an undefined [machineId], and the
    machine, as returned and as stored, has a null [imageId]. *)
Theorem saveMachine_image_not_linked :
  let db := fst (addSubstation initDB (str "North") 1700000000000) in
  let image := str "data:image/jpeg;base64,AAAA" in
  let clock := mkClock 1700000001000 1700000001001 1700000001002 in
  exists db' m,
    saveMachine db 1 2 3 (Some (str "T1")) (Some (str "ok")) (Some image)
                clock = (db', Resolved m) /\
    getAll (images db') = [mkStored 1 (Image.mk None image 1700000001000)] /\
    Machine.imageId (fields m) = None /\
    getAll (machines db') = [m].
Proof.
  eexists _, _. split; [reflexivity|]. repeat split.
Qed.

(** The same for a machine that exists: the image names the machine,
    the machine does not name the image. *)
Example saveMachine_image_not_linked_update :
  let db := fst (addSubstation initDB (str "North") 1700000000000) in
  let image := str "data:image/jpeg;base64,AAAA" in
  let clock := mkClock 1700000001000 1700000001001 1700000001002 in
  let db1 := fst (saveMachine db 1 2 3 (Some (str "T1")) None None clock) in
  exists db2 m,
    saveMachine db1 1 2 3 (Some (str "T1")) None (Some image) clock
    = (db2, Resolved m) /\
    getAll (images db2)
    = [mkStored 1 (Image.mk (Some (id m)) image 1700000001000)] /\
    Machine.imageId (fields m) = None.
Proof.
  eexists _, _. split; [reflexivity|]. repeat split.
Qed.

(** ** deleteMachine and deleteSubstation *)

Lemma deleteMachine_machines db k :
  machines (fst (deleteMachine db k)) = delete (machines db) k.
Proof. reflexivity. Qed.

Lemma deleteMachine_frame db k :
  substations (fst (deleteMachine db k)) = substations db /\
  syncRecords (fst (deleteMachine db k)) = syncRecords db.
Proof. split; reflexivity. Qed.

(** Images are only removed. *)
Lemma deleteMachine_images_keys db k x :
  In x (keys (images (fst (deleteMachine db k)))) -> In x (keys (images db)).
Proof.
  unfold deleteMachine. cbn [fst images].
  destruct (get (machines db) k) as [m|]; [|auto].
  destruct (truthyNumber _); [|auto].
  destruct (Machine.imageId (fields m)); [|auto].
  rewrite keys_delete. tauto.
Qed.

(** The image of the machine deleted is removed, when the machine
    names one by a truthy [imageId]. *)
Lemma deleteMachine_image db m i :
  get (machines db) (id m) = Some m ->
  Machine.imageId (fields m) = Some i -> i <> 0 ->
  get (images (fst (deleteMachine db (id m)))) i = None.
Proof.
  intros Hget Hi Hne. unfold deleteMachine. cbn [fst images].
  rewrite Hget, Hi. simpl.
  destruct (N.eqb_spec i 0); [contradiction|]. simpl. apply get_delete.
Qed.

(** The loop of [deleteMachinesBySubstationId] over machines that are
    stored under distinct keys. *)
Lemma deleteMachines_loop (l : list (Stored Machine.t)) :
  forall db,
    NoDup (map id l) ->
    (forall m, In m l -> get (machines db) (id m) = Some m) ->
    let db' := fold_left (fun db machine => fst (deleteMachine db (id machine)))
                         l db in
    (forall r, In r (records (machines db'))
               <-> In r (records (machines db)) /\ ~ In (id r) (map id l)) /\
    (forall x, In x (keys (images db')) -> In x (keys (images db))) /\
    (forall m i, In m l -> Machine.imageId (fields m) = Some i -> i <> 0 ->
                 get (images db') i = None) /\
    substations db' = substations db /\
    syncRecords db' = syncRecords db.
Proof.
  induction l as [|a l IH]; intros db Hnd Hget; cbv zeta; cbn [fold_left].
  - simpl. repeat split; tauto.
  - inversion Hnd as [|? ? Hna Hnd']; subst.
    destruct (IH (fst (deleteMachine db (id a))) Hnd') as [Hm [Hi [Hd [Hs Hr]]]].
    { intros m Hin. rewrite deleteMachine_machines, get_delete_other.
      - apply Hget. right. exact Hin.
      - intros E. apply Hna. rewrite <- E. apply in_map. exact Hin. }
    split; [|split; [|split; [|split]]].
    + intros r. rewrite Hm, deleteMachine_machines, records_delete.
      split; [intros [[H1 H2] H3]|intros [H1 H2]].
      * split; [exact H1|]. intros [E|E]; [congruence|contradiction].
      * split; [split; [exact H1|]|]; intros E; apply H2; [left|right]; auto.
    + intros x Hx. apply (deleteMachine_images_keys db (id a)). auto.
    + intros m i [<-|Hin] Him Hne.
      * apply get_none. intros Hx. apply Hi in Hx. revert Hx. apply get_none.
        apply deleteMachine_image; [apply Hget; left; reflexivity| |];
          assumption.
      * apply (Hd m i Hin Him Hne).
    + rewrite Hs. reflexivity.
    + rewrite Hr. reflexivity.
Qed.

(** What [deleteSubstation] deletes, on a database whose keys are well
    formed: the machines are deleted while the substation is still
    stored, then the substation is; afterwards the substation has no
    machine and is itself gone.  Of the images, those that a machine of
    the substation named by its [imageId] are gone; no machine that
    [saveMachine] wrote names one. *)
Lemma deleteSubstation_cascade (db : DB) (s : N) :
  wf (machines db) -> wf (images db) ->
  let D := getMachinesBySubstationId db s in
  let db' := fst (deleteSubstation db s) in
  snd (deleteSubstation db s) = Resolved true /\
  substations (deleteMachinesBySubstationId db s) = substations db /\
  substations db' = delete (substations db) s /\
  get (substations db') s = None /\
  getMachinesBySubstationId db' s = [] /\
  (forall d, In d D -> get (machines db') (id d) = None) /\
  (forall d i, In d D -> Machine.imageId (fields d) = Some i ->
               get (images db') i = None).
Proof.
  intros [Hs [Hb H1]] [His [Hib Hi1]] D db'.
  assert (NoDup (map id (records (machines db)))) as Hnd
    by (apply sorted_NoDup; exact Hs).
  destruct (deleteMachines_loop D db) as [Hm [Hi [Hd [Hsub Hr]]]].
  { apply NoDup_map_filter. exact Hnd. }
  { intros m Hin. apply filter_In in Hin. destruct Hin as [Hin _].
    destruct (machines db) as [l cur]. apply get_in; assumption. }
  change (fold_left _ D db) with (deleteMachinesBySubstationId db s)
    in Hm, Hi, Hd, Hsub, Hr.
  assert (machines db' = machines (deleteMachinesBySubstationId db s)) as Em
    by reflexivity.
  assert (images db' = images (deleteMachinesBySubstationId db s)) as Ei
    by reflexivity.
  assert (substations db'
          = delete (substations (deleteMachinesBySubstationId db s)) s) as Es
    by reflexivity.
  split; [reflexivity|]. split; [exact Hsub|].
  split; [rewrite Es, Hsub; reflexivity|].
  split; [rewrite Es; apply get_delete|].
  split; [|split].
  - destruct (getMachinesBySubstationId db' s) as [|r l] eqn:E; [reflexivity|].
    exfalso.
    assert (In r (getMachinesBySubstationId db' s)) as Hin
      by (rewrite E; left; reflexivity).
    apply filter_In in Hin. destruct Hin as [Hin Hsid].
    unfold getAll in Hin. rewrite Em in Hin. apply Hm in Hin.
    destruct Hin as [Hin Hnot]. apply Hnot. apply in_map.
    apply filter_In. split; assumption.
  - intros d Hin. apply get_none. intros Hk. unfold keys in Hk.
    apply in_map_iff in Hk. destruct Hk as [r [E Hr']].
    rewrite Em in Hr'. apply Hm in Hr'. destruct Hr' as [_ Hnot].
    apply Hnot. rewrite E. apply in_map. exact Hin.
  - intros d i Hin Him. rewrite Ei.
    destruct (N.eq_dec i 0) as [->|Hne].
    + apply get_none. intros Hx. apply Hi in Hx.
      unfold keys in Hib. rewrite Forall_forall in Hib.
      specialize (Hib 0 Hx). lia.
    + apply (Hd d i Hin Him Hne).
Qed.

(** C5 fails on the code: a substation, a machine saved twice with an
    image, then the substation deleted.  The machine and the substation
    are gone, both images are still stored, the second of them with the
    [machineId] of the deleted machine: the machine had a null
    [imageId], so [deleteMachine] deleted no image. *)
Theorem deleteSubstation_keeps_images :
  let image := str "data:image/jpeg;base64,AAAA" in
  let db :=
    runAll initDB
      [AddSubstation (str "North") 1700000000000;
       SaveMachine 1 2 3 (Some (str "T1")) None (Some image)
                   (mkClock 1700000001000 1700000001001 1700000001002);
       SaveMachine 1 2 3 (Some (str "T1")) None (Some image)
                   (mkClock 1700000002000 1700000002001 1700000002002)] in
  let db' := fst (deleteSubstation db 1) in
  map id (getMachinesBySubstationId db 1) = [1] /\
  getAll (images db)
  = [mkStored 1 (Image.mk None image 1700000001000);
     mkStored 2 (Image.mk (Some 1) image 1700000002000)] /\
  snd (deleteSubstation db 1) = Resolved true /\
  getAllSubstations db' = [] /\
  getMachinesBySubstationId db' 1 = [] /\
  getAll (images db') = getAll (images db).
Proof. repeat split. Qed.

(** ** importData *)

(** C10: whatever the snapshot and however the import ends, the store
    [syncRecords] after [importData] is the one before, and so is
    what [getAllSyncRecords] returns. *)
Theorem importData_keeps_syncRecords (db : DB) (data : Snapshot.t) :
  syncRecords (fst (importData db data)) = syncRecords db /\
  getAllSyncRecords (fst (importData db data)) = getAllSyncRecords db.
Proof.
  unfold getAllSyncRecords, importData.
  destruct (commit _ _) as [[[s m] i] r]. split; reflexivity.
Qed.

(** The import of the machines cannot fail on a request. *)
Lemma addEach_noIndex_total {V} (rows : list (Stored V)) :
  forall o, addEach noIndex o rows <> None.
Proof.
  induction rows as [|r rows IH]; intros o; simpl; [discriminate|].
  rewrite add_noIndex. apply IH.
Qed.

Lemma existsb_sameName l v :
  existsb (fun r => Substation.sameName (fields r) v) l = true
  <-> In (Substation.name v) (names l).
Proof.
  unfold names, Substation.sameName. rewrite existsb_exists, in_map_iff.
  split; intros [r [H1 H2]]; exists r.
  - apply string_eqb_eq in H2. auto.
  - split; [tauto|]. apply string_eqb_eq. tauto.
Qed.

Lemma names_app l1 l2 : names (l1 ++ l2) = names l1 ++ names l2.
Proof. apply map_app. Qed.

(** A row whose name is already stored makes the loop fail. *)
Lemma addEach_sameName_clash rows :
  forall o r,
    In r rows -> In (Substation.name (fields r)) (names (records o)) ->
    addEach Substation.sameName o rows = None.
Proof.
  induction rows as [|a rows IH]; intros o r Hin Hname; [destruct Hin|].
  simpl. unfold add.
  destruct (existsb _ (records o)) eqn:E; [reflexivity|].
  destruct Hin as [-> | Hin].
  - apply existsb_sameName in Hname. congruence.
  - apply (IH _ r Hin). simpl. rewrite names_app.
    apply in_or_app. left. exact Hname.
Qed.

(** Two rows of one name make the loop fail, whatever is stored. *)
Lemma addEach_sameName_dup rows :
  forall o, ~ NoDup (names rows) ->
    addEach Substation.sameName o rows = None.
Proof.
  induction rows as [|a rows IH]; intros o Hdup.
  - exfalso. apply Hdup. constructor.
  - simpl. unfold add.
    destruct (existsb _ (records o)) eqn:E; [reflexivity|].
    destruct (in_dec (list_eq_dec N.eq_dec)
                     (Substation.name (fields a)) (names rows)) as [Hin|Hnin].
    + apply in_map_iff in Hin. destruct Hin as [r [Hr Hin]].
      apply (addEach_sameName_clash rows _ r Hin).
      simpl. rewrite names_app, Hr. apply in_or_app. right. left. reflexivity.
    + apply IH. intros Hnd. apply Hdup. simpl. constructor; assumption.
Qed.

(** Rows of distinct names, none of them stored, are all added. *)
Lemma addEach_sameName_ok rows :
  forall o, NoDup (names (records o) ++ names rows) ->
    addEach Substation.sameName o rows
    = Some (mkStore (records o ++ renumber (current o) rows)
                    (current o + N.of_nat (List.length rows))).
Proof.
  induction rows as [|a rows IH]; intros o Hnd.
  - simpl. rewrite app_nil_r, N.add_0_r. destruct o; reflexivity.
  - cbn [addEach]. unfold add.
    destruct (existsb _ (records o)) eqn:E.
    + exfalso. apply existsb_sameName in E.
      apply NoDup_remove_2 in Hnd. apply Hnd.
      apply in_or_app. left. exact E.
    + rewrite IH.
      * cbn [records current renumber List.length].
        rewrite <- app_assoc, Nat2N.inj_succ. cbn [app].
        f_equal. f_equal. lia.
      * cbn [records]. rewrite names_app. simpl. rewrite <- app_assoc.
        exact Hnd.
Qed.

Lemma addEach_noIndex_ok {V} (rows : list (Stored V)) :
  forall o,
    addEach noIndex o rows
    = Some (mkStore (records o ++ renumber (current o) rows)
                    (current o + N.of_nat (List.length rows))).
Proof.
  induction rows as [|a rows IH]; intros o.
  - simpl. rewrite app_nil_r, N.add_0_r. destruct o; reflexivity.
  - cbn [addEach]. rewrite add_noIndex, IH.
    cbn [records current renumber List.length].
    rewrite <- app_assoc, Nat2N.inj_succ. cbn [app].
    f_equal. f_equal. lia.
Qed.

(** The requests of the import that can fail are the additions of two
    substations of one name. *)
Lemma insertFails_iff db data :
  insertFails db data = true
  <-> exists rows, Snapshot.substations data = Some rows
                   /\ ~ NoDup (names rows).
Proof.
  unfold insertFails. destruct (Snapshot.substations data) as [rows|].
  - destruct (ListDec.NoDup_dec (list_eq_dec N.eq_dec) (names rows))
      as [Hnd|Hdup].
    + rewrite addEach_sameName_ok by exact Hnd.
      destruct (Snapshot.machines data) as [ms|].
      * rewrite addEach_noIndex_ok. split; [discriminate|].
        intros [r [[= <-] H]]. contradiction.
      * split; [discriminate|]. intros [r [[= <-] H]]. contradiction.
    + rewrite addEach_sameName_dup by exact Hdup.
      split; [|reflexivity]. intros _. exists rows. auto.
  - split; [discriminate|]. intros [r [[=] _]].
Qed.

(** C2: when an [add] request of the import fails, the promise of
    [importData] is rejected with the request's error and the database
    is the one before the call, the three cleared stores included:
    [getAllSubstations] and [getMachinesBySubstationId] return what
    they returned before. *)
Theorem importData_atomic (db : DB) (data : Snapshot.t) :
  insertFails db data = true ->
  importData db data = (db, Rejected ConstraintError) /\
  getAllSubstations (fst (importData db data)) = getAllSubstations db /\
  forall s, getMachinesBySubstationId (fst (importData db data)) s
            = getMachinesBySubstationId db s.
Proof.
  intros H.
  assert (importData db data = (db, Rejected ConstraintError)) as E.
  { unfold insertFails in H. unfold importData, importTransaction.
    destruct (Snapshot.substations data) as [subs|]; [|discriminate].
    destruct (addEach Substation.sameName _ subs); simpl.
    - destruct (Snapshot.machines data) as [ms|]; [|discriminate].
      destruct (addEach noIndex _ ms); [discriminate|].
      simpl. destruct db; reflexivity.
    - destruct db; reflexivity. }
  rewrite E. auto.
Qed.

Lemma importData_atomic_witness :
  let db := fst (addSubstation initDB (str "North") 1700000000000) in
  let row := mkStored 7 (Substation.mk (str "East") 1700000000001) in
  let data := Snapshot.mk 1 1700000000002 (Some [row; row]) (Some []) in
  insertFails db data = true /\
  importData db data = (db, Rejected ConstraintError).
Proof.
  split; [reflexivity|].
  apply (importData_atomic
           (fst (addSubstation initDB (str "North") 1700000000000))
           (Snapshot.mk 1 1700000000002
              (Some [mkStored 7 (Substation.mk (str "East") 1700000000001);
                     mkStored 7 (Substation.mk (str "East") 1700000000001)])
              (Some []))).
  reflexivity.
Defined.

(** A rejection that no request caused is not rolled back: a snapshot
    whose [machines] cannot be iterated leaves the cleared stores and
    the substations added so far. *)
Remark importData_thrown_commits :
  let db := fst (addSubstation initDB (str "North") 1700000000000) in
  let row := mkStored 7 (Substation.mk (str "East") 1700000000001) in
  let data := Snapshot.mk 1 1700000000002 (Some [row]) None in
  snd (importData db data) = Rejected TypeError /\
  names (getAllSubstations (fst (importData db data))) = [str "East"].
Proof. split; reflexivity. Qed.

(** ** The invariant of the database

    [wfDB] holds of the database just created and after every call. *)

Lemma NoDup_snoc {A} (l : list A) x : NoDup l -> ~ In x l -> NoDup (l ++ [x]).
Proof.
  induction l as [|a l IH]; simpl; intros Hnd Hx.
  - constructor; [tauto|constructor].
  - inversion Hnd as [|? ? Ha Hl]; subst. constructor.
    + rewrite in_app_iff. simpl. intros [H|[H|[]]]; [tauto|].
      apply Hx. left. symmetry. exact H.
    + apply IH; tauto.
Qed.

Lemma add_sameName_names o v o' k :
  add Substation.sameName o v = Some (o', k) ->
  NoDup (names (records o)) -> NoDup (names (records o')).
Proof.
  unfold add. destruct (existsb _ _) eqn:E; [discriminate|].
  intros [= <- <-] Hnd. cbn [records]. rewrite names_app. simpl.
  apply NoDup_snoc; [exact Hnd|].
  intros Hin. apply existsb_sameName in Hin. congruence.
Qed.

Lemma addEach_sameName_names rows :
  forall o o', addEach Substation.sameName o rows = Some o' ->
    NoDup (names (records o)) -> NoDup (names (records o')).
Proof.
  induction rows as [|r rows IH]; simpl; intros o o' E Hnd.
  - injection E as <-. exact Hnd.
  - destruct (add Substation.sameName o (fields r)) as [[o1 k]|] eqn:Ea;
      [|discriminate].
    apply (IH o1 o' E). apply (add_sameName_names o _ o1 k Ea Hnd).
Qed.

Lemma wf_addEach {V} (unique : V -> V -> bool) rows :
  forall o o', wf o -> addEach unique o rows = Some o' -> wf o'.
Proof.
  induction rows as [|r rows IH]; simpl; intros o o' Hwf E.
  - injection E as <-. exact Hwf.
  - destruct (add unique o (fields r)) as [[o1 k]|] eqn:Ea; [|discriminate].
    apply (IH o1 o' (wf_add unique o _ o1 k Hwf Ea) E).
Qed.

Lemma wfDB_initDB : wfDB initDB.
Proof. constructor; try apply wf_created. constructor. Qed.

Lemma wfDB_addSubstation db name now :
  wfDB db -> wfDB (fst (addSubstation db name now)).
Proof.
  intros [Hs Hm Hi Hr Hn]. unfold addSubstation.
  destruct (add Substation.sameName (substations db) _) as [[o k]|] eqn:E;
    simpl; constructor; simpl; try assumption.
  - apply (wf_add _ _ _ _ _ Hs E).
  - apply (add_sameName_names _ _ _ _ E Hn).
Qed.

Lemma wfDB_saveMachine db s x y name info imageData clock :
  wfDB db -> wfDB (fst (saveMachine db s x y name info imageData clock)).
Proof.
  intros [Hs Hm Hi Hr Hn].
  assert (wf (images (fst (saveMachine db s x y name info imageData clock))))
    as Hi'.
  { unfold saveMachine.
    destruct (getMachineByPosition db s x y);
      destruct (truthyString imageData); rewrite ?add_noIndex; simpl;
      try exact Hi; eapply wf_add; try exact Hi; apply add_noIndex. }
  destruct (saveMachine_found db s x y name info imageData clock Hm)
    as [db1 [m1 [E [Hm1 _]]]].
  rewrite E in Hi'. rewrite E. simpl in *.
  assert (substations db1 = substations db /\ syncRecords db1 = syncRecords db)
    as [Es Er].
  { destruct (getMachineByPosition db s x y) as [e|] eqn:He.
    - destruct (saveMachine_existing db s x y name info imageData clock e He)
        as [i E']. rewrite E' in E. injection E as <- _. split; reflexivity.
    - destruct (saveMachine_new db s x y name info imageData clock He)
        as [i E']. rewrite E' in E. injection E as <- _. split; reflexivity. }
  constructor; rewrite ?Es, ?Er; assumption.
Qed.

Lemma wfDB_deleteMachine db k : wfDB db -> wfDB (fst (deleteMachine db k)).
Proof.
  intros [Hs Hm Hi Hr Hn]. unfold deleteMachine.
  constructor; simpl; try assumption; [apply wf_delete; exact Hm|].
  destruct (get (machines db) k) as [m|]; [|exact Hi].
  destruct (truthyNumber _); [|exact Hi].
  destruct (Machine.imageId (fields m)); [apply wf_delete|]; exact Hi.
Qed.

Lemma wfDB_deleteSubstation db s : wfDB db -> wfDB (fst (deleteSubstation db s)).
Proof.
  intros Hwf.
  assert (wfDB (deleteMachinesBySubstationId db s)) as [Hs Hm Hi Hr Hn].
  { unfold deleteMachinesBySubstationId.
    generalize (getMachinesBySubstationId db s). intros l. revert db Hwf.
    induction l as [|a l IH]; intros db Hwf; simpl; [exact Hwf|].
    apply IH. apply wfDB_deleteMachine. exact Hwf. }
  unfold deleteSubstation. constructor; simpl; try assumption.
  - apply wf_delete. exact Hs.
  - apply NoDup_map_filter. exact Hn.
Qed.

Lemma wfDB_addSyncRecord db type data now :
  wfDB db -> wfDB (fst (addSyncRecord db type data now)).
Proof.
  intros [Hs Hm Hi Hr Hn]. unfold addSyncRecord. rewrite add_noIndex. simpl.
  constructor; simpl; try assumption.
  eapply wf_add; [exact Hr|apply add_noIndex].
Qed.

Lemma wfDB_clearSyncRecords db : wfDB db -> wfDB (fst (clearSyncRecords db)).
Proof.
  intros [Hs Hm Hi Hr Hn]. constructor; simpl; try assumption.
  apply wf_clear. exact Hr.
Qed.

(** However the import ends. *)
Lemma wfDB_importData db data : wfDB db -> wfDB (fst (importData db data)).
Proof.
  intros Hwf. pose proof Hwf as [Hs Hm Hi Hr Hn].
  pose proof (wf_clear _ Hs) as Hs0. pose proof (wf_clear _ Hm) as Hm0.
  pose proof (wf_clear _ Hi) as Hi0.
  unfold importData, importTransaction.
  destruct (Snapshot.substations data) as [subs|]; simpl.
  - destruct (addEach Substation.sameName _ subs) as [s1|] eqn:E1; simpl.
    + pose proof (wf_addEach _ _ _ _ Hs0 E1) as Hs1.
      pose proof (addEach_sameName_names _ _ _ E1 (NoDup_nil _)) as Hn1.
      destruct (Snapshot.machines data) as [ms|]; simpl.
      * destruct (addEach noIndex _ ms) as [m1|] eqn:E2; simpl.
        -- constructor; simpl; try assumption.
           apply (wf_addEach _ _ _ _ Hm0 E2).
        -- destruct db; exact Hwf.
      * constructor; simpl; assumption.
    + destruct db; exact Hwf.
  - constructor; simpl; try assumption. constructor.
Qed.

(** ** exportAllData followed by importData *)

Lemma fields_renumber {V} (rows : list (Stored V)) :
  forall k, map fields (renumber k rows) = map fields rows.
Proof.
  induction rows as [|r rows IH]; intros k; simpl; [reflexivity|].
  rewrite IH. reflexivity.
Qed.

(** A test on the fields selects the same rows before and after the
    keys are given anew. *)
Lemma filter_renumber {V} (p : V -> bool) (rows : list (Stored V)) :
  forall k,
    map fields (filter (fun r => p (fields r)) (renumber k rows))
    = map fields (filter (fun r => p (fields r)) rows).
Proof.
  induction rows as [|r rows IH]; intros k; simpl; [reflexivity|].
  destruct (p (fields r)); simpl; rewrite IH; reflexivity.
Qed.

Lemma filter_flat_map {A B} (p : B -> bool) (f : A -> list B) l :
  filter p (flat_map f l) = flat_map (fun a => filter p (f a)) l.
Proof.
  induction l as [|a l IH]; simpl; [reflexivity|].
  rewrite filter_app, IH. reflexivity.
Qed.

Lemma ofSubstation_twice (l : list (Stored Machine.t)) k s :
  filter (ofSubstation s) (filter (ofSubstation k) l)
  = if k =? s then filter (ofSubstation s) l else [].
Proof.
  unfold ofSubstation.
  induction l as [|m l IH]; simpl; [destruct (k =? s); reflexivity|].
  destruct (N.eqb_spec (Machine.substationId (fields m)) k) as [E|E]; simpl.
  - rewrite IH, E. destruct (N.eqb_spec k s) as [E'|E']; reflexivity.
  - rewrite IH. destruct (N.eqb_spec k s) as [E'|E']; [|reflexivity].
    destruct (N.eqb_spec (Machine.substationId (fields m)) s);
      [congruence|reflexivity].
Qed.

(** The machines of one substation in the export: those of the
    database when the substation is stored, none otherwise. *)
Lemma export_ofSubstation (subs : list (Stored Substation.t))
  (l : list (Stored Machine.t)) s :
  NoDup (map id subs) ->
  filter (ofSubstation s)
         (flat_map (fun sub => filter (ofSubstation (id sub)) l) subs)
  = if in_dec N.eq_dec s (map id subs)
    then filter (ofSubstation s) l else [].
Proof.
  intros Hnd. rewrite filter_flat_map.
  induction subs as [|a subs IH]; simpl; [reflexivity|].
  inversion Hnd as [|? ? Hna Hnd']; subst.
  rewrite ofSubstation_twice, (IH Hnd').
  destruct (N.eq_dec (id a) s) as [E|E].
  - rewrite E, N.eqb_refl.
    destruct (in_dec N.eq_dec s (map id subs)) as [Hin|_];
      [exfalso; apply Hna; rewrite E; exact Hin|].
    apply app_nil_r.
  - destruct (N.eqb_spec (id a) s); [contradiction|].
    destruct (in_dec N.eq_dec s (map id subs)); reflexivity.
Qed.

(** The database after the export is imported, on a well-formed
    database: the rows of the export under new keys, no image. *)
Lemma importData_exportAllData db now :
  NoDup (names (records (substations db))) ->
  importData db (exportAllData db now)
  = (mkDB (mkStore (renumber (current (substations db))
                             (records (substations db)))
                   (current (substations db)
                    + N.of_nat (List.length (records (substations db)))))
          (mkStore (renumber (current (machines db))
                      (flat_map (fun sub => getMachinesBySubstationId db (id sub))
                                (records (substations db))))
                   (current (machines db)
                    + N.of_nat (List.length
                        (flat_map (fun sub => getMachinesBySubstationId db (id sub))
                                  (records (substations db))))))
          (clear (images db)) (syncRecords db),
     Resolved true).
Proof.
  intros Hnd. unfold importData, importTransaction, exportAllData,
    getAllSubstations, getAll.
  cbn [Snapshot.substations Snapshot.machines].
  rewrite addEach_sameName_ok by exact Hnd.
  rewrite addEach_noIndex_ok. reflexivity.
Qed.

(** The rows themselves come through the round trip when every machine
    belongs to a stored substation: up to the keys of the rows, the
    substations are those before, in their order, and the machines that
    carry a given [substationId] are those before.  The identifiers are
    those of the substations before the import, not the keys the
    substations have after it. *)
Lemma roundtrip_rows db now :
  wfDB db -> noOrphan db ->
  let db' := fst (importData db (exportAllData db now)) in
  siteRows db' = siteRows db /\
  forall s, deviceRows db' s = deviceRows db s.
Proof.
  intros Hwf Horph db'. unfold db'.
  rewrite importData_exportAllData by apply (uniqueNames db Hwf).
  unfold siteRows, deviceRows, getAllSubstations,
    getMachinesBySubstationId, getAll.
  cbn [fst substations machines records]. split.
  - apply fields_renumber.
  - intros s.
    rewrite (filter_renumber (fun v => Machine.substationId v =? s)).
    f_equal.
    change (filter (ofSubstation s)
              (flat_map (fun sub => filter (ofSubstation (id sub))
                                           (records (machines db)))
                        (records (substations db)))
            = filter (ofSubstation s) (records (machines db))).
    rewrite export_ofSubstation
      by (apply sorted_NoDup; apply (wfSubstations db Hwf)).
    destruct (in_dec N.eq_dec s (map id (records (substations db))))
      as [_|Hnot]; [reflexivity|].
    symmetry. apply find_none_filter.
    destruct (find (ofSubstation s) (records (machines db))) as [m|] eqn:E;
      [|reflexivity].
    exfalso. apply Hnot. apply find_some in E. destruct E as [Hin Hs].
    unfold ofSubstation in Hs. apply N.eqb_eq in Hs. rewrite <- Hs.
    apply (Horph m Hin).
Qed.

Ltac concrete_wf :=
  repeat split; repeat constructor; simpl; try lia;
  try (intuition discriminate).

(** C1 fails on the code: two substations with a machine each.  The
    import of the export resolves, and the rows are all there, but the
    substations have the new keys 3 and 4 while the machines still carry
    the [substationId] 1 and 2: each substation listed its machine
    before and no substation lists a machine after.  The next export
    holds no machine, so a second round trip deletes them. *)
Theorem export_import_unlinks_devices :
  let db := twoSites in
  let db' := fst (importData db (exportAllData db 1700000003000)) in
  let listing (d : DB) :=
    map (fun sub => (id sub, Substation.name (fields sub),
                     map id (getMachinesBySubstationId d (id sub))))
        (getAllSubstations d) in
  snd (importData db (exportAllData db 1700000003000)) = Resolved true /\
  listing db = [(1, str "North", [1]); (2, str "South", [2])] /\
  listing db' = [(3, str "North", []); (4, str "South", [])] /\
  map (fun m => (id m, Machine.substationId (fields m))) (getAll (machines db'))
  = [(3, 1); (4, 2)] /\
  Snapshot.machines (exportAllData db' 1700000004000) = Some [] /\
  getAll (machines (fst (importData db' (exportAllData db' 1700000004000))))
  = [].
Proof. repeat split. Qed.

End DbFacts.

(** * Properties of the coordinator *)

Module SyncFacts.
Import Db Sync.

Lemma send_open c m : channelOpen c = true -> send c m = delivered c m.
Proof.
  unfold channelOpen, send, delivered.
  destruct (dataChannel c) as [ch|]; [|discriminate].
  intros ->. reflexivity.
Qed.

(** C9: on a connection whose channel is missing or not open, [send]
    changes nothing: the message is handed to no channel and is kept
    nowhere, and the connection is the one it was. *)
Theorem send_not_open_noop (c : SyncConnection) (m : Message) :
  channelOpen c = false -> send c m = c.
Proof.
  unfold channelOpen, send.
  destruct (dataChannel c) as [ch|]; [|reflexivity].
  intros ->. reflexivity.
Qed.

Lemma send_not_open_noop_witness :
  let c := newSyncConnection (str "192.168.1.20") true in
  channelOpen c = false /\ send c Ping = c.
Proof.
  split; [reflexivity|].
  apply (send_not_open_noop (newSyncConnection (str "192.168.1.20") true) Ping).
  reflexivity.
Defined.

(** C7: while hosting, [requestSyncFrom] returns false and leaves
    every variable of the coordinator as it was: no connection is
    created or tracked, no status change is announced. *)
Theorem requestSyncFrom_while_hosting (st : State) (hostIp : jsstring)
  (hostPort : N) :
  isHosting st = true ->
  requestSyncFrom st hostIp hostPort = (st, false).
Proof.
  intros H. unfold requestSyncFrom. rewrite H. reflexivity.
Qed.

Lemma requestSyncFrom_while_hosting_witness :
  let st := fst (startBroadcast (initSync (str "device_a_1")) (str "192.168.1.100")) in
  isHosting st = true /\
  requestSyncFrom st (str "192.168.1.20") SYNC_PORT = (st, false).
Proof.
  split; [reflexivity|].
  apply (requestSyncFrom_while_hosting
           (fst (startBroadcast (initSync (str "device_a_1")) (str "192.168.1.100")))
           (str "192.168.1.20") SYNC_PORT).
  reflexivity.
Defined.

(** When not hosting, the connection is created and tracked. *)
Lemma requestSyncFrom_not_hosting st hostIp hostPort :
  isHosting st = false ->
  exists st',
    requestSyncFrom st hostIp hostPort = (st', true) /\
    syncClients st' = syncClients st ++ [newSyncConnection hostIp true] /\
    isConnected st' = true.
Proof.
  intros H. unfold requestSyncFrom. rewrite H.
  eexists. split; [reflexivity|]. split; reflexivity.
Qed.

Lemma hostingHasManager_initSync d : hostingHasManager (initSync d).
Proof. unfold hostingHasManager. simpl. discriminate. Qed.

Lemma hostingHasManager_startBroadcast st ip :
  hostingHasManager st -> hostingHasManager (fst (startBroadcast st ip)).
Proof.
  unfold hostingHasManager, startBroadcast.
  destruct (isHosting st) eqn:E; simpl; [rewrite E; auto|].
  intros _ _. discriminate.
Qed.

Lemma hostingHasManager_stopBroadcast st : hostingHasManager (stopBroadcast st).
Proof. unfold hostingHasManager. simpl. discriminate. Qed.

Lemma hostingHasManager_requestSyncFrom st ip port :
  hostingHasManager st -> hostingHasManager (fst (requestSyncFrom st ip port)).
Proof.
  unfold hostingHasManager, requestSyncFrom.
  destruct (isHosting st) eqn:E; simpl; [rewrite E; auto|].
  intros _ H. discriminate H.
Qed.

Lemma hostingHasManager_performSync st db now :
  hostingHasManager st -> hostingHasManager (fst (performSync st db now)).
Proof.
  unfold hostingHasManager, performSync.
  destruct (negb (isConnected st) && negb (isHosting st));
    cbn [fst isHosting localSyncManager]; [auto|].
  intros H E. specialize (H E). rewrite E.
  destruct (localSyncManager st); [discriminate|congruence].
Qed.

(** C8: [performSync] returns false, and changes nothing, when the
    coordinator is neither hosting nor connected.  Otherwise it
    returns true, and with [data] the one export of the database:
    every tracked connection whose session is open has [sync-data]
    with [data] handed to its channel, every other connection is left
    as it was, and the manager of a hosting coordinator has [data]
    posted on its channel, while a coordinator that is not hosting
    posts nothing. *)
Theorem performSync_spec (st : State) (db : DB) (now : timestamp) :
  (isConnected st = false -> isHosting st = false ->
   performSync st db now = (st, false)) /\
  (isConnected st = true \/ isHosting st = true ->
   let data := exportAllData db now in
   let st' := fst (performSync st db now) in
   snd (performSync st db now) = true /\
   Forall2 (fun c c' =>
              c' = if sessionOpen c then delivered c (SyncData data) else c)
           (syncClients st) (syncClients st') /\
   (isHosting st = true ->
    forall m, localSyncManager st = Some m ->
      localSyncManager st'
      = Some (mkManager (posted m ++ [BusSyncData (localDeviceId st) data]))) /\
   (isHosting st = false -> localSyncManager st' = localSyncManager st) /\
   isHosting st' = isHosting st /\ isConnected st' = isConnected st).
Proof.
  split.
  - intros Hc Hh. unfold performSync. rewrite Hc, Hh. reflexivity.
  - intros Hrole. unfold performSync.
    assert (negb (isConnected st) && negb (isHosting st) = false) as ->.
    { destruct Hrole as [-> | ->]; simpl; [reflexivity|apply andb_false_r]. }
    cbn [fst snd syncClients localSyncManager isHosting isConnected].
    split; [reflexivity|]. split; [|split; [|split; [|split; reflexivity]]].
    + induction (syncClients st) as [|c l IH]; simpl; constructor; [|exact IH].
      unfold sessionOpen. destruct (connected c); simpl; [|reflexivity].
      destruct (channelOpen c) eqn:E.
      * apply send_open; exact E.
      * unfold channelOpen in E. unfold send.
      destruct (dataChannel c) as [ch|]; [rewrite E|]; reflexivity.
    + intros Hh m Hm. rewrite Hm, Hh. reflexivity.
    + intros Hh. rewrite Hh. destruct (localSyncManager st); reflexivity.
Qed.

Lemma performSync_spec_witness :
  let st := mkState
              [onopen (newSyncConnection (str "peer-1") true);
               newSyncConnection (str "peer-2") true]
              (str "device_a_1") true true (Some (mkManager [])) [] in
  let data := exportAllData initDB 1700000000000 in
  (isConnected st = true \/ isHosting st = true) /\
  snd (performSync st initDB 1700000000000) = true /\
  Forall2 (fun c c' =>
             c' = if sessionOpen c then delivered c (SyncData data) else c)
          (syncClients st)
          (syncClients (fst (performSync st initDB 1700000000000))).
Proof.
  split; [left; reflexivity|].
  pose proof (proj2 (performSync_spec
    (mkState
       [onopen (newSyncConnection (str "peer-1") true);
        newSyncConnection (str "peer-2") true]
       (str "device_a_1") true true (Some (mkManager [])) [])
    initDB 1700000000000) (or_introl eq_refl)) as H.
  split; [exact (proj1 H)|exact (proj1 (proj2 H))].
Defined.

(** The open session of the two gets the export, the other nothing. *)
Example performSync_two_sessions :
  let st := mkState
              [onopen (newSyncConnection (str "peer-1") true);
               newSyncConnection (str "peer-2") true]
              (str "device_a_1") true true (Some (mkManager [])) [] in
  let st' := fst (performSync st initDB 1700000000000) in
  map (fun c => option_map sent (dataChannel c)) (syncClients st')
  = [Some [SyncData (exportAllData initDB 1700000000000)]; Some []] /\
  option_map posted (localSyncManager st')
  = Some [BusSyncData (str "device_a_1")
                      (exportAllData initDB 1700000000000)].
Proof. split; reflexivity. Qed.

End SyncFacts.

(** * Further properties of the store of db.js *)

Module DbMore.
Import Db StoreFacts DbFacts.

Section Store.
Context {V : Type}.
Implicit Types (o : ObjectStore V) (l : list (Stored V)).

Lemma find_hd_filter (p : Stored V -> bool) l :
  find p l = hd_error (filter p l).
Proof.
  induction l as [|a l IH]; simpl; [reflexivity|].
  destruct (p a); [reflexivity|exact IH].
Qed.

Lemma filter_all (p : Stored V -> bool) l :
  (forall r, In r l -> p r = true) -> filter p l = l.
Proof.
  induction l as [|a l IH]; simpl; intros H; [reflexivity|].
  rewrite (H a) by (left; reflexivity). f_equal. apply IH.
  intros r Hr. apply H. right. exact Hr.
Qed.

(** Deleting a key that is not stored leaves the store as it is. *)
Lemma delete_missing o k : get o k = None -> delete o k = o.
Proof.
  intros H. apply get_none in H. unfold delete. rewrite filter_all.
  - destruct o; reflexivity.
  - intros r Hr. destruct (N.eqb_spec (id r) k) as [E|E]; [|reflexivity].
    exfalso. apply H. rewrite <- E. apply in_map. exact Hr.
Qed.

Lemma same_key_same_record l a b :
  NoDup (map id l) -> In a l -> In b l -> id a = id b -> a = b.
Proof.
  induction l as [|r l IH]; intros Hnd Ha Hb E; [destruct Ha|].
  inversion Hnd as [|? ? Hr Hl]; subst.
  destruct Ha as [->|Ha], Hb as [->|Hb]; try reflexivity.
  - exfalso. apply Hr. rewrite E. apply in_map. exact Hb.
  - exfalso. apply Hr. rewrite <- E. apply in_map. exact Ha.
  - apply IH; assumption.
Qed.

Lemma In_replaceOrInsert k v l r :
  In r (replaceOrInsert k v l) -> r = mkStored k v \/ In r l.
Proof.
  induction l as [|a l IH]; simpl.
  - intros [<-|[]]. left. reflexivity.
  - destruct (k =? id a).
    + intros [<-|H]; [left; reflexivity|right; right; exact H].
    + destruct (k <? id a).
      * intros [<-|H]; [left; reflexivity|right; exact H].
      * intros [<-|H]; [right; left; reflexivity|].
        destruct (IH H) as [->|H']; [left; reflexivity|right; right; exact H'].
Qed.

(** [put] on the key of a stored record changes nothing for a test that
    neither the old nor the new record passes. *)
Lemma filter_replaceOrInsert_other (q : Stored V -> bool) l e v :
  StronglySorted N.lt (map id l) -> In e l ->
  q e = false -> q (mkStored (id e) v) = false ->
  filter q (replaceOrInsert (id e) v l) = filter q l.
Proof.
  induction l as [|r l IH]; intros Hs Hin Hqe Hqv; [destruct Hin|].
  simpl. destruct (N.eqb_spec (id e) (id r)) as [E|E].
  - assert (e = r) as ->.
    { apply (same_key_same_record (r :: l));
        [apply sorted_NoDup; exact Hs|exact Hin|left; reflexivity|exact E]. }
    simpl. rewrite Hqv, Hqe. reflexivity.
  - destruct Hin as [->|Hin]; [congruence|].
    pose proof (sorted_head_lt r l e Hs Hin) as Hlt.
    destruct (N.ltb_spec (id e) (id r)); [lia|].
    simpl. rewrite IH; [reflexivity| |exact Hin|exact Hqe|exact Hqv].
    simpl in Hs. apply StronglySorted_inv in Hs. tauto.
Qed.

End Store.

(** ** deleteMachine and getMachine *)

(** X1: [deleteMachine] of a key that is not stored resolves to true and
    leaves the database as it is. *)
Theorem deleteMachine_missing (db : DB) (machineId : N) :
  get (machines db) machineId = None ->
  deleteMachine db machineId = (db, Resolved true).
Proof.
  intros H. unfold deleteMachine. rewrite H, delete_missing by exact H.
  destruct db; reflexivity.
Qed.

Lemma deleteMachine_missing_witness :
  get (machines twoSites) 9 = None /\
  deleteMachine twoSites 9 = (twoSites, Resolved true).
Proof.
  split; [reflexivity|]. apply (deleteMachine_missing twoSites 9). reflexivity.
Defined.

(** X2: a machine that [saveMachine] has stored is what [getMachine]
    resolves to for its [id], without image data, whatever image was
    passed; and after [deleteMachine] of that [id], [getMachine]
    resolves to nothing. *)
Theorem getMachine_after_saveMachine (db : DB) (s : N) (x y : Z)
  (name info imageData : option jsstring) (clock : Clock) :
  wf (machines db) ->
  exists db' m,
    saveMachine db s x y name info imageData clock = (db', Resolved m) /\
    getMachine db' (id m) = Some (m, NotSet) /\
    getMachine (fst (deleteMachine db' (id m))) (id m) = None.
Proof.
  intros Hwf.
  destruct (saveMachine_found db s x y name info imageData clock Hwf)
    as [db' [m [E [Hwf' [Hf [_ [_ [_ [Hi _]]]]]]]]].
  exists db', m. split; [exact E|].
  rewrite getMachineByPosition_find in Hf. apply find_some_in in Hf.
  destruct Hf as [Hin _]. split.
  - unfold getMachine.
    assert (get (machines db') (id m) = Some m) as ->.
    { destruct (machines db') as [l cur]. apply get_in; [|exact Hin].
      apply sorted_NoDup. apply Hwf'. }
    rewrite Hi. reflexivity.
  - unfold getMachine. rewrite deleteMachine_machines, get_delete. reflexivity.
Qed.

Lemma getMachine_after_saveMachine_witness :
  wf (machines twoSites) /\
  exists db' m,
    saveMachine twoSites 1 5 5 (Some (str "T3")) None
                (Some (str "data:image/jpeg;base64,AAAA"))
                (mkClock 1700000005000 1700000005000 1700000005000)
    = (db', Resolved m) /\
    getMachine db' (id m) = Some (m, NotSet).
Proof.
  assert (wf (machines twoSites)) as Hwf by concrete_wf.
  split; [exact Hwf|].
  destruct (getMachine_after_saveMachine twoSites 1 5 5 (Some (str "T3")) None
              (Some (str "data:image/jpeg;base64,AAAA"))
              (mkClock 1700000005000 1700000005000 1700000005000) Hwf)
    as [db' [m [E [G _]]]].
  exists db', m. split; assumption.
Defined.

(** ** saveMachine *)

Lemma atCell_other s x y s' x' y' m :
  (s', x', y') <> (s, x, y) -> atCell s x y m = true ->
  atCell s' x' y' m = false.
Proof.
  unfold atCell. intros Hne H.
  apply andb_true_iff in H. destruct H as [Hs H].
  apply andb_true_iff in H. destruct H as [Hx Hy].
  apply N.eqb_eq in Hs. apply Z.eqb_eq in Hx. apply Z.eqb_eq in Hy.
  rewrite Hs, Hx, Hy.
  destruct (N.eqb_spec s s') as [<-|]; [|reflexivity].
  destruct (Z.eqb_spec x x') as [<-|]; [|reflexivity].
  destruct (Z.eqb_spec y y') as [<-|]; [|reflexivity].
  congruence.
Qed.

(** X3: [saveMachine] for one cell leaves every other cell as it was:
    the machines at another cell of any substation, and the one
    [getMachineByPosition] finds there, are those before the call; the
    substations and the sync records are untouched. *)
Theorem saveMachine_other_cells (db : DB) (s : N) (x y : Z)
  (name info imageData : option jsstring) (clock : Clock)
  (s' : N) (x' y' : Z) :
  wf (machines db) -> (s', x', y') <> (s, x, y) ->
  let db' := fst (saveMachine db s x y name info imageData clock) in
  machinesAt db' s' x' y' = machinesAt db s' x' y' /\
  getMachineByPosition db' s' x' y' = getMachineByPosition db s' x' y' /\
  substations db' = substations db /\
  syncRecords db' = syncRecords db.
Proof.
  intros Hwf Hne db'.
  assert (filter (atCell s' x' y') (records (machines db'))
          = filter (atCell s' x' y') (records (machines db))
          /\ substations db' = substations db
          /\ syncRecords db' = syncRecords db) as [Hf [Hs Hr]].
  { unfold db'. destruct (getMachineByPosition db s x y) as [e|] eqn:He.
    - destruct (saveMachine_existing db s x y name info imageData clock e He)
        as [i ->].
      split; [|split; reflexivity]. cbn [fst machines put records].
      rewrite getMachineByPosition_find in He.
      apply find_some_in in He. destruct He as [Hin Hp].
      apply filter_replaceOrInsert_other.
      + apply Hwf.
      + exact Hin.
      + apply (atCell_other s x y); assumption.
      + apply (atCell_other s x y); [exact Hne|apply atCell_saved].
    - destruct (saveMachine_new db s x y name info imageData clock He)
        as [i ->].
      split; [|split; reflexivity]. cbn [fst machines records].
      rewrite filter_app. simpl.
      rewrite (atCell_other s x y); [apply app_nil_r|exact Hne|].
      apply atCell_saved. }
  split; [rewrite !machinesAt_filter; exact Hf|].
  split; [|split; assumption].
  rewrite !getMachineByPosition_find, !find_hd_filter, Hf. reflexivity.
Qed.

Lemma saveMachine_other_cells_witness :
  wf (machines twoSites) /\ (2%N, 0%Z, 0%Z) <> (1%N, 2%Z, 3%Z) /\
  getMachineByPosition
    (fst (saveMachine twoSites 1 2 3 (Some (str "T9")) None None
            (mkClock 1700000005000 1700000005000 1700000005000))) 2 0 0
  = getMachineByPosition twoSites 2 0 0.
Proof.
  assert (wf (machines twoSites)) as Hwf by concrete_wf.
  assert ((2%N, 0%Z, 0%Z) <> (1%N, 2%Z, 3%Z)) as Hne by discriminate.
  split; [exact Hwf|]. split; [exact Hne|].
  apply (saveMachine_other_cells twoSites 1 2 3 (Some (str "T9")) None None
           (mkClock 1700000005000 1700000005000 1700000005000) 2 0 0 Hwf Hne).
Defined.

(** ** The invariant over sequences of calls *)

Lemma wfDB_run db call : wfDB db -> wfDB (run db call).
Proof.
  destruct call; simpl.
  - apply wfDB_addSubstation.
  - apply wfDB_saveMachine.
  - apply wfDB_deleteMachine.
  - apply wfDB_deleteSubstation.
  - apply wfDB_importData.
  - apply wfDB_addSyncRecord.
  - apply wfDB_clearSyncRecords.
Qed.

Lemma wfDB_runAll calls : forall db, wfDB db -> wfDB (runAll db calls).
Proof.
  induction calls as [|c calls IH]; intros db H; simpl; [exact H|].
  apply IH. apply wfDB_run. exact H.
Qed.

(** X4: after any sequence of calls on the database just created, in
    every store the keys ascend strictly below the key generator, so no
    two records of a store share an [id], and no two substations share
    a name. *)
Theorem runAll_wfDB (calls : list Call) :
  let db := runAll initDB calls in
  wfDB db /\
  NoDup (keys (substations db)) /\ NoDup (keys (machines db)) /\
  NoDup (keys (images db)) /\ NoDup (keys (syncRecords db)) /\
  NoDup (names (getAllSubstations db)).
Proof.
  intros db. assert (wfDB db) as H by (apply wfDB_runAll, wfDB_initDB).
  split; [exact H|]. destruct H as [[Hs _] [Hm _] [Hi _] [Hr _] Hn].
  repeat split; try (apply sorted_NoDup; assumption). exact Hn.
Qed.

(** ** Keys are not given twice *)

Section Retired.
Context {V : Type}.
Implicit Types (o : ObjectStore V).

Lemma retired_add unique o v o' k' k :
  add unique o v = Some (o', k') -> retired o k -> retired o' k.
Proof.
  unfold add. destruct (existsb _ _); [discriminate|].
  intros [= <- <-] [Hlt Hnot]. unfold retired, keys. simpl.
  split; [lia|]. rewrite map_app, in_app_iff. simpl.
  intros [H|[H|[]]]; [exact (Hnot H)|lia].
Qed.

Lemma retired_put o k' v k :
  wf o -> In k' (keys o) -> retired o k -> retired (fst (put o k' v)) k.
Proof.
  intros [Hs _] Hin [Hlt Hnot]. unfold retired, keys, put. simpl.
  rewrite replaceOrInsert_keys by assumption.
  split; [|exact Hnot]. destruct (N.leb_spec (current o) k'); lia.
Qed.

Lemma retired_delete o k' k : retired o k -> retired (delete o k') k.
Proof.
  intros [Hlt Hnot]. split; [exact Hlt|]. rewrite keys_delete. tauto.
Qed.

Lemma retired_clear o k : k < current o -> retired (clear o) k.
Proof. intros H. split; [exact H|]. simpl. tauto. Qed.

Lemma retired_addEach unique (rows : list (Stored V)) :
  forall o o' k, addEach unique o rows = Some o' ->
    retired o k -> retired o' k.
Proof.
  induction rows as [|r rows IH]; simpl; intros o o' k E H.
  - injection E as <-. exact H.
  - destruct (add unique o (fields r)) as [[o1 k1]|] eqn:Ea; [|discriminate].
    apply (IH o1 o' k E). apply (retired_add unique o _ o1 k1 k Ea H).
Qed.

End Retired.

Lemma saveMachine_frame db s x y name info imageData clock :
  substations (fst (saveMachine db s x y name info imageData clock))
  = substations db /\
  syncRecords (fst (saveMachine db s x y name info imageData clock))
  = syncRecords db.
Proof.
  destruct (getMachineByPosition db s x y) as [e|] eqn:He.
  - destruct (saveMachine_existing db s x y name info imageData clock e He)
      as [i ->]. split; reflexivity.
  - destruct (saveMachine_new db s x y name info imageData clock He)
      as [i ->]. split; reflexivity.
Qed.

(** A property that [deleteMachine] keeps is kept by the loop. *)
Lemma deleteMachines_keep (P : DB -> Prop) :
  (forall db k, P db -> P (fst (deleteMachine db k))) ->
  forall db s, P db -> P (deleteMachinesBySubstationId db s).
Proof.
  intros Hstep db s. unfold deleteMachinesBySubstationId.
  generalize (getMachinesBySubstationId db s). intros l. revert db.
  induction l as [|a l IH]; intros db H; simpl; [exact H|].
  apply IH. apply Hstep. exact H.
Qed.

Lemma retired_substations_run db call k :
  retired (substations db) k -> retired (substations (run db call)) k.
Proof.
  intros H. destruct call; simpl.
  - unfold addSubstation.
    destruct (add Substation.sameName (substations db) _) as [[o k']|] eqn:E;
      simpl; [|exact H].
    apply (retired_add _ _ _ _ _ _ E H).
  - rewrite (proj1 (saveMachine_frame _ _ _ _ _ _ _ _)). exact H.
  - exact H.
  - apply retired_delete.
    apply (deleteMachines_keep (fun d => retired (substations d) k));
      [intros d k' Hd; exact Hd|exact H].
  - unfold importData, importTransaction.
    destruct (Snapshot.substations data) as [subs|]; simpl.
    + destruct (addEach Substation.sameName _ subs) as [s1|] eqn:E1; simpl;
        [|destruct db; exact H].
      assert (retired s1 k) as H1.
      { apply (retired_addEach _ _ _ _ _ E1). apply retired_clear. apply H. }
      destruct (Snapshot.machines data) as [ms|]; simpl; [|exact H1].
      destruct (addEach noIndex _ ms); simpl; [exact H1|destruct db; exact H].
    + apply retired_clear. apply H.
  - unfold addSyncRecord. rewrite add_noIndex. exact H.
  - exact H.
Qed.

Lemma retired_machines_run db call k :
  wfDB db -> retired (machines db) k -> retired (machines (run db call)) k.
Proof.
  intros Hwf H. destruct call; simpl.
  - unfold addSubstation.
    destruct (add Substation.sameName (substations db) _) as [[o k']|];
      exact H.
  - destruct (getMachineByPosition db substationId positionX positionY)
      as [e|] eqn:He.
    + destruct (saveMachine_existing db substationId positionX positionY
                  name info imageData clock e He) as [i ->].
      cbn [fst machines]. apply retired_put; [apply Hwf| |exact H].
      rewrite getMachineByPosition_find in He. apply find_some_in in He.
      apply in_map. tauto.
    + destruct (saveMachine_new db substationId positionX positionY
                  name info imageData clock He) as [i ->].
      cbn [fst machines]. eapply retired_add; [apply add_noIndex|exact H].
  - apply retired_delete. exact H.
  - apply (deleteMachines_keep (fun d => retired (machines d) k));
      [intros d k' Hd; apply retired_delete; exact Hd|exact H].
  - unfold importData, importTransaction.
    destruct (Snapshot.substations data) as [subs|]; simpl.
    + destruct (addEach Substation.sameName _ subs) as [s1|]; simpl;
        [|destruct db; exact H].
      destruct (Snapshot.machines data) as [ms|]; simpl;
        [|apply retired_clear; apply H].
      destruct (addEach noIndex _ ms) as [m1|] eqn:E2; simpl;
        [|destruct db; exact H].
      apply (retired_addEach _ _ _ _ _ E2). apply retired_clear. apply H.
    + apply retired_clear. apply H.
  - unfold addSyncRecord. rewrite add_noIndex. exact H.
  - exact H.
Qed.

(** X5: the [id] of a substation or of a machine is not given twice.  On
    a well-formed database, a key that the generator has passed and that
    no record holds (its record was deleted or replaced by an import) is
    the key of no record after any sequence of calls. *)
Theorem ids_not_reused (db : DB) (calls : list Call) (k : N) :
  wfDB db ->
  (retired (substations db) k ->
   ~ In k (keys (substations (runAll db calls)))) /\
  (retired (machines db) k ->
   ~ In k (keys (machines (runAll db calls)))).
Proof.
  intros Hwf.
  assert (forall d, wfDB d ->
            (retired (substations d) k ->
             retired (substations (runAll d calls)) k) /\
            (retired (machines d) k ->
             retired (machines (runAll d calls)) k)) as H.
  { induction calls as [|c calls IH]; intros d Hd; simpl; [tauto|].
    destruct (IH (run d c) (wfDB_run d c Hd)) as [Hs Hm]. split; intros Hr.
    - apply Hs. apply retired_substations_run. exact Hr.
    - apply Hm. apply retired_machines_run; assumption. }
  destruct (H db Hwf) as [Hs Hm].
  split; intros Hr; [apply (Hs Hr)|apply (Hm Hr)].
Qed.

Lemma ids_not_reused_witness :
  let db := fst (deleteSubstation twoSites 1) in
  wfDB db /\ retired (substations db) 1 /\
  ~ In 1 (keys (substations
                 (runAll db [AddSubstation (str "North") 1700000009000;
                             ImportData (exportAllData db 1700000009500)]))).
Proof.
  assert (wfDB (fst (deleteSubstation twoSites 1))) as Hwf
    by (constructor; concrete_wf).
  assert (retired (substations (fst (deleteSubstation twoSites 1))) 1) as Hr.
  { split; [reflexivity|]. simpl. intros [H|[]]. discriminate. }
  split; [exact Hwf|]. split; [exact Hr|].
  apply (proj1 (ids_not_reused (fst (deleteSubstation twoSites 1))
                  [AddSubstation (str "North") 1700000009000;
                   ImportData (exportAllData (fst (deleteSubstation twoSites 1))
                                             1700000009500)]
                  1 Hwf)).
  exact Hr.
Defined.

(** ** Images are kept *)

Lemma saveMachine_images db s x y name info imageData clock :
  images (fst (saveMachine db s x y name info imageData clock))
  = if truthyString imageData
    then mkStore (records (images db)
                    ++ [mkStored (current (images db))
                          (Image.mk (option_map id
                                       (getMachineByPosition db s x y))
                                    (orEmpty imageData) (atImage clock))])
                 (current (images db) + 1)
    else images db.
Proof.
  unfold saveMachine.
  destruct (getMachineByPosition db s x y);
    destruct (truthyString imageData); rewrite ?add_noIndex; reflexivity.
Qed.

Lemma saveMachine_machines_in db s x y name info imageData clock r :
  In r (records (machines (fst (saveMachine db s x y name info imageData
                                            clock)))) ->
  Machine.imageId (fields r) = None \/ In r (records (machines db)).
Proof.
  destruct (getMachineByPosition db s x y) as [e|] eqn:He.
  - destruct (saveMachine_existing db s x y name info imageData clock e He)
      as [i ->].
    cbn [fst machines put records]. intros H.
    apply In_replaceOrInsert in H. destruct H as [->|H]; [left|right; exact H].
    reflexivity.
  - destruct (saveMachine_new db s x y name info imageData clock He)
      as [i ->].
    cbn [fst machines records]. rewrite in_app_iff. simpl.
    intros [H|[<-|[]]]; [right; exact H|left; reflexivity].
Qed.

(** Where no machine names an image, [deleteMachine] deletes none. *)
Lemma deleteMachine_noImageId db k :
  noImageId db ->
  images (fst (deleteMachine db k)) = images db /\
  noImageId (fst (deleteMachine db k)).
Proof.
  intros H. split.
  - unfold deleteMachine. cbn [fst images].
    destruct (get (machines db) k) as [m|] eqn:E; [|reflexivity].
    apply find_some_in in E. rewrite (H m) by tauto. reflexivity.
  - intros m Hm. rewrite deleteMachine_machines in Hm.
    apply records_delete in Hm. apply H. tauto.
Qed.

Lemma local_run db call :
  isImport call = false -> noImageId db ->
  noImageId (run db call) /\
  forall k, In k (keys (images db)) -> In k (keys (images (run db call))).
Proof.
  intros Hc H.
  destruct call as [n t|s x y nm inf img clk|mid|sid|data|ty dt t|];
    cbn [run isImport] in *; try discriminate.
  - unfold addSubstation.
    destruct (add Substation.sameName (substations db) _) as [[o k']|];
      simpl; split; auto.
  - split.
    + intros m Hm. apply saveMachine_machines_in in Hm.
      destruct Hm as [Hm|Hm]; [exact Hm|apply (H m Hm)].
    + intros k Hk. rewrite saveMachine_images.
      destruct (truthyString img); [|exact Hk].
      unfold keys. simpl. rewrite map_app, in_app_iff. left. exact Hk.
  - destruct (deleteMachine_noImageId db mid H) as [E H'].
    split; [exact H'|]. rewrite E. auto.
  - assert (noImageId (deleteMachinesBySubstationId db sid)
            /\ images (deleteMachinesBySubstationId db sid) = images db)
      as [H' E].
    { apply (deleteMachines_keep
               (fun d => noImageId d /\ images d = images db));
        [|split; [exact H|reflexivity]].
      intros d k [Hd Ed].
      destruct (deleteMachine_noImageId d k Hd) as [E' H'].
      split; [exact H'|]. rewrite E'. exact Ed. }
    split; [intros m Hm; apply (H' m); exact Hm|].
    intros k Hk.
    change (In k (keys (images (deleteMachinesBySubstationId db sid)))).
    rewrite E. exact Hk.
  - unfold addSyncRecord. rewrite add_noIndex. simpl. split; auto.
  - split; auto.
Qed.

(** X6: without an import, no image is ever deleted.  From a database in
    which no machine names an image, as the database just created, any
    sequence of calls other than [importData] leaves every stored image
    in the store, the images of deleted machines and substations
    included, and leaves every machine without [imageId]. *)
Theorem images_never_deleted (db : DB) (calls : list Call) :
  noImageId db -> forallb (fun c => negb (isImport c)) calls = true ->
  noImageId (runAll db calls) /\
  forall k, In k (keys (images db)) ->
            In k (keys (images (runAll db calls))).
Proof.
  revert db. induction calls as [|c calls IH]; intros db H Hc; simpl.
  - split; auto.
  - simpl in Hc. apply andb_true_iff in Hc. destruct Hc as [Hc Hcs].
    apply negb_true_iff in Hc.
    destruct (local_run db c Hc H) as [H1 K1].
    destruct (IH (run db c) H1 Hcs) as [H2 K2].
    split; [exact H2|]. intros k Hk. apply K2, K1, Hk.
Qed.

Lemma images_never_deleted_witness :
  let image := Some (str "data:image/jpeg;base64,AAAA") in
  let clock := mkClock 1700000005000 1700000005000 1700000005000 in
  let db := runAll initDB [AddSubstation (str "North") 1700000000000;
                           SaveMachine 1 2 3 None None image clock] in
  noImageId db /\
  keys (images db) = [1] /\
  In 1 (keys (images (runAll db [SaveMachine 1 2 3 None None image clock;
                                 DeleteSubstation 1]))) /\
  getAllSubstations (runAll db [SaveMachine 1 2 3 None None image clock;
                                DeleteSubstation 1]) = [].
Proof.
  assert (noImageId
            (runAll initDB
               [AddSubstation (str "North") 1700000000000;
                SaveMachine 1 2 3 None None
                  (Some (str "data:image/jpeg;base64,AAAA"))
                  (mkClock 1700000005000 1700000005000 1700000005000)]))
    as H.
  { intros m [<-|[]]. reflexivity. }
  split; [exact H|]. split; [reflexivity|]. split; [|reflexivity].
  apply (proj2 (images_never_deleted _
                  [SaveMachine 1 2 3 None None
                     (Some (str "data:image/jpeg;base64,AAAA"))
                     (mkClock 1700000005000 1700000005000 1700000005000);
                   DeleteSubstation 1] H eq_refl)).
  left. reflexivity.
Defined.

(** ** deleteSubstation *)

Lemma deleteMachines_records (l : list (Stored Machine.t)) :
  forall db,
    records (machines (fold_left
                         (fun db machine => fst (deleteMachine db (id machine)))
                         l db))
    = filter (fun r => negb (existsb (N.eqb (id r)) (map id l)))
             (records (machines db)).
Proof.
  induction l as [|a l IH]; intros db; cbn [fold_left map existsb].
  - symmetry. apply filter_all. reflexivity.
  - rewrite IH, deleteMachine_machines. cbn [delete records].
    rewrite filter_filter. apply filter_ext. intros r.
    rewrite negb_orb. reflexivity.
Qed.

Lemma deleteMachine_images_filter db m :
  get (machines db) (id m) = Some m ->
  images (fst (deleteMachine db (id m)))
  = mkStore (filter (fun r => negb (namesImage (id r) m))
                    (records (images db)))
            (current (images db)).
Proof.
  intros Hget. unfold deleteMachine, namesImage. cbn [fst images].
  rewrite Hget. destruct (Machine.imageId (fields m)) as [i|]; simpl.
  - destruct (N.eqb_spec i 0) as [E|E]; simpl.
    + rewrite filter_all by reflexivity. destruct (images db); reflexivity.
    + unfold delete. f_equal. apply filter_ext. intros r.
      rewrite N.eqb_sym. reflexivity.
  - rewrite filter_all by reflexivity. destruct (images db); reflexivity.
Qed.

(** The images that the loop of [deleteMachinesBySubstationId] leaves
    are those that none of the machines names. *)
Lemma deleteMachines_images (l : list (Stored Machine.t)) :
  forall db,
    NoDup (map id l) ->
    (forall m, In m l -> get (machines db) (id m) = Some m) ->
    images (fold_left (fun db machine => fst (deleteMachine db (id machine)))
                      l db)
    = mkStore (filter (fun r => negb (namedBy l (id r)))
                      (records (images db)))
              (current (images db)).
Proof.
  induction l as [|a l IH]; intros db Hnd Hget; cbn [fold_left].
  - unfold namedBy. simpl. rewrite filter_all by reflexivity.
    destruct (images db); reflexivity.
  - inversion Hnd as [|? ? Hna Hnd']; subst.
    rewrite IH; [|exact Hnd'|].
    + rewrite deleteMachine_images_filter by (apply Hget; left; reflexivity).
      cbn [records current]. rewrite filter_filter. f_equal.
      apply filter_ext. intros r. unfold namedBy. simpl.
      rewrite negb_orb. reflexivity.
    + intros m Hin. rewrite deleteMachine_machines, get_delete_other.
      * apply Hget. right. exact Hin.
      * intros E. apply Hna. rewrite <- E. apply in_map. exact Hin.
Qed.

(** X7: what [deleteSubstation] leaves.  The machines of every other
    substation are listed as before, the other substations are listed
    as before and in their order, and the sync records are untouched.
    Of the images, those are removed that a machine of the deleted
    substation names by a truthy [imageId], and no other; a removed
    image can be one that a machine of another substation names too. *)
Theorem deleteSubstation_frame (db : DB) (s s' : N) :
  wf (machines db) -> s' <> s ->
  let db' := fst (deleteSubstation db s) in
  getMachinesBySubstationId db' s' = getMachinesBySubstationId db s' /\
  getAllSubstations db'
  = filter (fun r => negb (id r =? s)) (getAllSubstations db) /\
  syncRecords db' = syncRecords db /\
  getAll (images db')
  = filter (fun r => negb (namedBy (getMachinesBySubstationId db s) (id r)))
           (getAll (images db)).
Proof.
  intros Hwf Hne db'.
  assert (NoDup (map id (records (machines db)))) as Hnd
    by (apply sorted_NoDup; apply Hwf).
  assert (substations (deleteMachinesBySubstationId db s) = substations db
          /\ syncRecords (deleteMachinesBySubstationId db s) = syncRecords db)
    as [Es Er].
  { apply (deleteMachines_keep
             (fun d => substations d = substations db
                       /\ syncRecords d = syncRecords db));
      [intros d k Hd; exact Hd|split; reflexivity]. }
  split; [|split; [|split]].
  - unfold db', getMachinesBySubstationId, getAll.
    cbn [deleteSubstation fst machines].
    unfold deleteMachinesBySubstationId. rewrite deleteMachines_records.
    rewrite filter_filter. apply filter_ext_in. intros r Hr.
    destruct (Machine.substationId (fields r) =? s') eqn:E;
      [|apply andb_false_r].
    rewrite andb_true_r. apply negb_true_iff.
    destruct (existsb (N.eqb (id r)) _) eqn:Ex; [|reflexivity].
    exfalso. apply existsb_exists in Ex. destruct Ex as [k [Hk Ek]].
    apply N.eqb_eq in Ek. subst k. apply in_map_iff in Hk.
    destruct Hk as [m [Em Hm]]. apply filter_In in Hm.
    destruct Hm as [Hm Hs].
    assert (m = r) as -> by (apply (same_key_same_record _ _ _ Hnd); auto).
    apply N.eqb_eq in E, Hs. congruence.
  - unfold db', getAllSubstations, getAll.
    cbn [deleteSubstation fst substations]. rewrite Es. reflexivity.
  - unfold db'. cbn [deleteSubstation fst syncRecords]. exact Er.
  - unfold db', getAll. cbn [deleteSubstation fst images].
    unfold deleteMachinesBySubstationId. rewrite deleteMachines_images.
    + reflexivity.
    + apply NoDup_map_filter. exact Hnd.
    + intros m Hin. apply filter_In in Hin. destruct Hin as [Hin _].
      destruct (machines db) as [l cur]. apply get_in; assumption.
Qed.

(** In [sharedImage] the machine 2 of substation 2 shows the image 1,
    which the machine 1 of substation 1 names too: deleting substation 1
    leaves the machines of substation 2 and removes the image, and the
    machine 2 shows no image data any more. *)
Lemma deleteSubstation_frame_witness :
  wf (machines sharedImage) /\ 2 <> 1 /\
  getMachinesBySubstationId (fst (deleteSubstation sharedImage 1)) 2
  = getMachinesBySubstationId sharedImage 2 /\
  keys (images sharedImage) = [1] /\
  getAll (images (fst (deleteSubstation sharedImage 1))) = [] /\
  option_map snd (getMachine sharedImage 2)
  = Some (Data (str "data:image/jpeg;base64,AAAA")) /\
  option_map snd (getMachine (fst (deleteSubstation sharedImage 1)) 2)
  = Some Null.
Proof.
  assert (wf (machines sharedImage)) as Hwf by concrete_wf.
  assert (2 <> 1) as Hne by discriminate.
  destruct (deleteSubstation_frame sharedImage 1 2 Hwf Hne)
    as [Hm [_ [_ Hi]]].
  split; [exact Hwf|]. split; [exact Hne|]. split; [exact Hm|].
  split; [reflexivity|]. split; [rewrite Hi; reflexivity|].
  split; reflexivity.
Defined.

(** ** importData *)

Lemma importData_syncRecords_same db data :
  syncRecords (fst (importData db data)) = syncRecords db.
Proof.
  unfold importData. destruct (commit _ _) as [[[s m] i] r]. reflexivity.
Qed.

(** X8: [importData] resolves exactly when both lists of the snapshot
    can be iterated and no two of its substations have the same name;
    the rows may name substations that do not exist. *)
Theorem importData_resolves_iff (db : DB) (data : Snapshot.t) :
  snd (importData db data) = Resolved true
  <-> exists subs ms,
        Snapshot.substations data = Some subs /\
        Snapshot.machines data = Some ms /\
        NoDup (names subs).
Proof.
  unfold importData, importTransaction.
  destruct (Snapshot.substations data) as [subs|]; simpl.
  - destruct (ListDec.NoDup_dec (list_eq_dec N.eq_dec) (names subs))
      as [Hnd|Hdup].
    + rewrite addEach_sameName_ok by exact Hnd.
      destruct (Snapshot.machines data) as [ms|]; simpl.
      * rewrite addEach_noIndex_ok. simpl. split; [|reflexivity].
        intros _. exists subs, ms. auto.
      * split; [discriminate|]. intros [? [? [_ [[=] _]]]].
    + rewrite addEach_sameName_dup by exact Hdup. simpl.
      split; [discriminate|]. intros [? [? [[= <-] [_ H]]]]. contradiction.
  - split; [discriminate|]. intros [? [? [[=] _]]].
Qed.

(** X9: an import that resolves is a full replacement, whatever the
    database held: the substations and the machines are the rows of the
    snapshot in their order, under keys the generators give; no image is
    left, so that [getMachine] finds image data for no machine, though
    the rows keep their [imageId]; the sync records are untouched. *)
Theorem importData_replaces (db : DB) (data : Snapshot.t)
  (subs : list (Stored Substation.t)) (ms : list (Stored Machine.t)) :
  Snapshot.substations data = Some subs ->
  Snapshot.machines data = Some ms ->
  NoDup (names subs) ->
  exists db',
    importData db data = (db', Resolved true) /\
    getAllSubstations db' = renumber (current (substations db)) subs /\
    getAll (machines db') = renumber (current (machines db)) ms /\
    siteRows db' = map fields subs /\
    map fields (getAll (machines db')) = map fields ms /\
    getAll (images db') = [] /\
    (forall k m d, getMachine db' k <> Some (m, Data d)) /\
    syncRecords db' = syncRecords db.
Proof.
  intros Hs Hm Hnd. unfold importData, importTransaction.
  rewrite Hs, Hm, addEach_sameName_ok by exact Hnd.
  rewrite addEach_noIndex_ok. simpl.
  eexists. split; [reflexivity|].
  unfold siteRows, getAllSubstations, getAll. simpl.
  rewrite !fields_renumber.
  repeat (split; [reflexivity|]). split; [|reflexivity].
  intros k m d. unfold getMachine. cbn [machines images].
  match goal with |- context [get ?o k] => destruct (get o k) as [r|] end;
    [|discriminate].
  destruct (truthyNumber _); [|discriminate].
  destruct (Machine.imageId (fields r)); discriminate.
Qed.

Lemma importData_replaces_witness :
  let subs := [mkStored 7 (Substation.mk (str "East") 1700000000001)] in
  let ms := [mkStored 4 (Machine.mk 7 0 1 (str "T4") [] (Some 9)
                                    1700000000002 1700000000002)] in
  let data := Snapshot.mk 1 1700000000003 (Some subs) (Some ms) in
  NoDup (names subs) /\
  exists db',
    importData twoSites data = (db', Resolved true) /\
    getAllSubstations db' = renumber 3 subs /\
    getAll (machines db') = renumber 3 ms.
Proof.
  assert (NoDup (names [mkStored 7 (Substation.mk (str "East") 1700000000001)]))
    as Hnd by (repeat constructor; simpl; tauto).
  split; [exact Hnd|].
  destruct (importData_replaces twoSites
              (Snapshot.mk 1 1700000000003
                 (Some [mkStored 7 (Substation.mk (str "East") 1700000000001)])
                 (Some [mkStored 4 (Machine.mk 7 0 1 (str "T4") [] (Some 9)
                                      1700000000002 1700000000002)]))
              _ _ eq_refl eq_refl Hnd) as [db' [E [H1 [H2 _]]]].
  exists db'. split; [exact E|]. split; assumption.
Defined.

(** X10: an import that is rejected because a list of the snapshot cannot
    be iterated is not rolled back.  Without the substations, the three
    stores are left empty; with substations of distinct names and
    without the machines, the substations of the snapshot have replaced
    those of the database, and no machine and no image is left. *)
Theorem importData_thrown_not_rolled_back (db : DB) (data : Snapshot.t) :
  (Snapshot.substations data = None ->
   importData db data
   = (mkDB (clear (substations db)) (clear (machines db)) (clear (images db))
           (syncRecords db),
      Rejected TypeError)) /\
  (forall subs,
     Snapshot.substations data = Some subs -> NoDup (names subs) ->
     Snapshot.machines data = None ->
     exists db',
       importData db data = (db', Rejected TypeError) /\
       siteRows db' = map fields subs /\
       getAll (machines db') = [] /\
       getAll (images db') = []).
Proof.
  split.
  - intros Hs. unfold importData, importTransaction. rewrite Hs. reflexivity.
  - intros subs Hs Hnd Hm. unfold importData, importTransaction.
    rewrite Hs, Hm, addEach_sameName_ok by exact Hnd. simpl.
    eexists. split; [reflexivity|].
    unfold siteRows, getAllSubstations, getAll. simpl.
    rewrite fields_renumber. repeat split.
Qed.

Lemma importData_thrown_not_rolled_back_witness :
  let data := Snapshot.mk 1 1700000000003 None None in
  Snapshot.substations data = None /\
  snd (importData twoSites data) = Rejected TypeError /\
  getAllSubstations (fst (importData twoSites data)) = [] /\
  getAll (machines (fst (importData twoSites data))) = [].
Proof.
  split; [reflexivity|].
  rewrite (proj1 (importData_thrown_not_rolled_back twoSites
                    (Snapshot.mk 1 1700000000003 None None)) eq_refl).
  repeat split.
Defined.

(** ** exportAllData *)

(** X11: the export holds every stored substation, and of the machines
    exactly those whose [substationId] is the [id] of a stored
    substation, each of them once. *)
Theorem exportAllData_content (db : DB) (now : timestamp) :
  wf (substations db) -> wf (machines db) ->
  exists ms,
    Snapshot.substations (exportAllData db now) = Some (getAllSubstations db) /\
    Snapshot.machines (exportAllData db now) = Some ms /\
    (forall m, In m ms
               <-> In m (getAll (machines db))
                   /\ In (Machine.substationId (fields m))
                         (keys (substations db))) /\
    NoDup (map id ms).
Proof.
  intros [Hs _] [Hm _]. apply sorted_NoDup in Hs, Hm.
  eexists. split; [reflexivity|]. split; [reflexivity|].
  unfold getAllSubstations, getMachinesBySubstationId, getAll, keys in *.
  split.
  - intros m. rewrite in_flat_map. split.
    + intros [sub [Hsub Hin]]. apply filter_In in Hin.
      destruct Hin as [Hin E]. apply N.eqb_eq in E.
      split; [exact Hin|]. rewrite E. apply in_map. exact Hsub.
    + intros [Hin Hk]. apply in_map_iff in Hk. destruct Hk as [sub [E Hsub]].
      exists sub. split; [exact Hsub|]. apply filter_In.
      split; [exact Hin|]. apply N.eqb_eq. congruence.
  - induction (records (substations db)) as [|a subs IH]; simpl;
      [constructor|].
    inversion Hs as [|? ? Ha Hs']; subst.
    rewrite map_app. apply NoDup_app.
    + apply NoDup_map_filter. exact Hm.
    + apply IH. exact Hs'.
    + intros k H1 H2. apply in_map_iff in H1, H2.
      destruct H1 as [m1 [E1 H1]], H2 as [m2 [E2 H2]].
      apply filter_In in H1. destruct H1 as [H1 S1].
      apply in_flat_map in H2. destruct H2 as [sub [Hsub H2]].
      apply filter_In in H2. destruct H2 as [H2 S2].
      assert (m1 = m2) as ->
        by (apply (same_key_same_record _ _ _ Hm); congruence).
      apply N.eqb_eq in S1, S2. apply Ha. rewrite <- S1, S2.
      apply in_map. exact Hsub.
Qed.

Lemma exportAllData_content_witness :
  wf (substations twoSitesImported) /\ wf (machines twoSitesImported) /\
  exists ms,
    Snapshot.machines (exportAllData twoSitesImported 1700000004000) = Some ms
    /\ forall m, In m ms
                 <-> In m (getAll (machines twoSitesImported))
                     /\ In (Machine.substationId (fields m))
                           (keys (substations twoSitesImported)).
Proof.
  assert (wf (substations twoSitesImported)) as Hs by concrete_wf.
  assert (wf (machines twoSitesImported)) as Hm by concrete_wf.
  split; [exact Hs|]. split; [exact Hm|].
  destruct (exportAllData_content twoSitesImported 1700000004000 Hs Hm)
    as [ms [_ [E [H _]]]].
  exists ms. split; assumption.
Defined.

(** ** The export imported *)

Lemma renumber_keys_ge {V} (rows : list (Stored V)) :
  forall c k, In k (map id (renumber c rows)) -> c <= k.
Proof.
  induction rows as [|r rows IH]; simpl; intros c k H; [destruct H|].
  destruct H as [<-|H]; [lia|]. apply IH in H. lia.
Qed.

Lemma renumber_fields_in {V} (rows : list (Stored V)) :
  forall c r, In r (renumber c rows) ->
    exists r0, In r0 rows /\ fields r = fields r0.
Proof.
  induction rows as [|a rows IH]; simpl; intros c r H; [destruct H|].
  destruct H as [<-|H]; [exists a; split; [left|]; reflexivity|].
  destruct (IH _ _ H) as [r0 [H0 E]]. exists r0. split; [right|]; assumption.
Qed.

Lemma filter_none {A} (p : A -> bool) (l : list A) :
  (forall a, In a l -> p a = false) -> filter p l = [].
Proof.
  induction l as [|a l IH]; simpl; intros H; [reflexivity|].
  rewrite (H a) by (left; reflexivity). apply IH.
  intros b Hb. apply H. right. exact Hb.
Qed.

Lemma flat_map_none {A B} (f : A -> list B) (l : list A) :
  (forall a, In a l -> f a = []) -> flat_map f l = [].
Proof.
  induction l as [|a l IH]; simpl; intros H; [reflexivity|].
  rewrite (H a) by (left; reflexivity). apply IH.
  intros b Hb. apply H. right. exact Hb.
Qed.

(** X12: importing the export gives every substation a key the generator
    had not reached, while the machines keep the [substationId] they
    had: under the new key of a substation no machine is listed, and the
    next export holds no machine at all. *)
Theorem roundtrip_orphans (db : DB) (now now' : timestamp) :
  wfDB db ->
  let db' := fst (importData db (exportAllData db now)) in
  (forall sub, In sub (getAllSubstations db') ->
     current (substations db) <= id sub /\
     getMachinesBySubstationId db' (id sub) = []) /\
  Snapshot.machines (exportAllData db' now') = Some [].
Proof.
  intros Hwf db'. unfold db'.
  rewrite importData_exportAllData by apply (uniqueNames db Hwf).
  assert (forall sub,
            In sub (renumber (current (substations db))
                             (records (substations db))) ->
            current (substations db) <= id sub /\
            filter (fun m => Machine.substationId (fields m) =? id sub)
              (renumber (current (machines db))
                 (flat_map (fun sub => getMachinesBySubstationId db (id sub))
                           (records (substations db)))) = []) as H.
  { intros sub Hsub.
    assert (current (substations db) <= id sub) as Hge
      by (apply (renumber_keys_ge (records (substations db))), in_map; exact Hsub).
    split; [exact Hge|]. apply filter_none. intros m Hm.
    apply renumber_fields_in in Hm. destruct Hm as [m0 [Hm0 E]].
    apply in_flat_map in Hm0. destruct Hm0 as [s0 [Hs0 Hm0]].
    apply filter_In in Hm0. destruct Hm0 as [_ Es]. apply N.eqb_eq in Es.
    apply N.eqb_neq. rewrite E, Es.
    destruct (wfSubstations db Hwf) as [_ [Hb _]].
    rewrite Forall_forall in Hb.
    specialize (Hb (id s0) (in_map id _ _ Hs0)). lia. }
  split; [exact H|].
  unfold exportAllData. cbn [Snapshot.machines]. f_equal.
  apply flat_map_none. intros sub Hsub. apply (H sub Hsub).
Qed.

Lemma roundtrip_orphans_witness :
  wfDB twoSites /\
  map id (getAllSubstations twoSitesImported) = [3; 4] /\
  getMachinesBySubstationId twoSitesImported 3 = [] /\
  Snapshot.machines (exportAllData twoSitesImported 1700000004000) = Some [].
Proof.
  assert (wfDB twoSites) as Hwf by (constructor; concrete_wf).
  split; [exact Hwf|]. split; [reflexivity|].
  destruct (roundtrip_orphans twoSites 1700000003000 1700000004000 Hwf)
    as [H E].
  split; [|exact E].
  apply (H (mkStored 3 (Substation.mk (str "North") 1700000000000))).
  left. reflexivity.
Defined.

(** ** Sync records *)

(** X13: the log is kept in the order of the calls.  After a sequence of
    calls of [addSyncRecord], [getAllSyncRecords] returns the records
    that were there followed by the rows added, in the order of the
    calls and under ascending keys; after [clearSyncRecords] it returns
    nothing. *)
Theorem syncRecords_log (db : DB) (rows : list SyncRecord.t) :
  let db' := runAll db (map logCall rows) in
  getAllSyncRecords db'
  = getAllSyncRecords db
    ++ renumber (current (syncRecords db)) (map (mkStored 0) rows) /\
  map fields (getAllSyncRecords db')
  = map fields (getAllSyncRecords db) ++ rows /\
  getAllSyncRecords (fst (clearSyncRecords db')) = [].
Proof.
  intros db'.
  assert (getAllSyncRecords db'
          = getAllSyncRecords db
            ++ renumber (current (syncRecords db)) (map (mkStored 0) rows))
    as E.
  { unfold db'. clear db'. revert db.
    induction rows as [|r rows IH]; intros db.
    - simpl. symmetry. apply app_nil_r.
    - change (runAll db (map logCall (r :: rows)))
        with (runAll (run db (logCall r)) (map logCall rows)).
      rewrite IH. unfold logCall, run, addSyncRecord.
      rewrite add_noIndex. unfold getAllSyncRecords, getAll.
      cbn [fst syncRecords records current map renumber fields].
      rewrite <- app_assoc. destruct r; reflexivity. }
  split; [exact E|]. split; [|reflexivity].
  rewrite E, map_app, fields_renumber, map_map. simpl.
  rewrite map_id. reflexivity.
Qed.

End DbMore.

(** * Further properties of sync.js *)

Module SyncMore.
Import Db Sync StoreFacts DbFacts DbMore SyncFacts.

(** ** Device identifier *)

(** X14: the device identifier is generated once.  Whatever the storage
    holds at first, a second call of [generateDeviceId] returns the
    identifier of the first and leaves the storage as the first call
    left it, whatever the random digits and the time of the second
    call. *)
Theorem generateDeviceId_stable (item : option jsstring)
  (random random' : jsstring) (now now' : N) :
  let first := generateDeviceId item random now in
  generateDeviceId (fst first) random' now' = first /\
  fst first = Some (snd first).
Proof.
  unfold generateDeviceId.
  destruct (truthyString item) eqn:E.
  - cbn [fst snd]. rewrite E.
    destruct item as [[|c s]|]; try discriminate. split; reflexivity.
  - cbn [fst snd]. split; reflexivity.
Qed.

(** ** The variables of the coordinator *)

Lemma updateAt_nonempty {A} (f : A -> A) i (l : list A) :
  l <> [] -> updateAt f i l <> [].
Proof. destruct l; [contradiction|]. destruct i; discriminate. Qed.

Lemma coordinated_act st a : coordinated st -> coordinated (act st a).
Proof.
  intros Hc. pose proof Hc as [[H1 H1'] [H2 H3]]. destruct a; cbn [act].
  - unfold startBroadcast. destruct (isHosting st) eqn:E; [exact Hc|].
    unfold coordinated. simpl. repeat split; auto; discriminate.
  - unfold coordinated. simpl. repeat split; try discriminate.
    intros H. contradiction.
  - unfold requestSyncFrom. destruct (isHosting st) eqn:E; [exact Hc|].
    unfold coordinated. simpl. repeat split; try discriminate.
    + intros H. apply H1'. exact H.
    + intros _. right. destruct (syncClients st); discriminate.
  - unfold performSync.
    destruct (negb (isConnected st) && negb (isHosting st)); [exact Hc|].
    unfold coordinated. simpl. repeat split; auto.
    + intros H. specialize (H1 H). rewrite H.
      destruct (localSyncManager st); [discriminate|contradiction].
    + intros H. apply H1'.
      destruct (localSyncManager st); [discriminate|contradiction].
    + intros H. destruct (H3 H) as [H'|H']; [left; exact H'|right].
      destruct (syncClients st); [contradiction|discriminate].
  - unfold coordinated. simpl. repeat split; auto.
    intros H. destruct (H3 H) as [H'|H']; [left; exact H'|right].
    apply updateAt_nonempty. exact H'.
  - unfold coordinated. simpl. repeat split; auto.
    intros H. destruct (H3 H) as [H'|H']; [left; exact H'|right].
    apply updateAt_nonempty. exact H'.
Qed.

Lemma localDeviceId_act st a : localDeviceId (act st a) = localDeviceId st.
Proof.
  destruct a; cbn [act]; try reflexivity.
  - unfold startBroadcast. destruct (isHosting st); reflexivity.
  - unfold requestSyncFrom. destruct (isHosting st); reflexivity.
  - unfold performSync.
    destruct (negb (isConnected st) && negb (isHosting st)); reflexivity.
Qed.

(** X15: after any calls of the coordinator and any channel events since
    the script was loaded, the coordinator is hosting exactly when it
    has a [LocalSyncManager]; while hosting it counts as connected; when
    it counts as connected without hosting it tracks a connection; and
    the device identifier is the one it was loaded with. *)
Theorem coordinator_invariant (deviceId : jsstring) (actions : list Action) :
  let st := actAll (initSync deviceId) actions in
  (isHosting st = true <-> localSyncManager st <> None) /\
  (isHosting st = true -> isConnected st = true) /\
  (isConnected st = true -> isHosting st = true \/ syncClients st <> []) /\
  localDeviceId st = deviceId.
Proof.
  intros st.
  assert (forall s, coordinated s ->
            coordinated (actAll s actions)
            /\ localDeviceId (actAll s actions) = localDeviceId s) as H.
  { induction actions as [|a actions IH]; intros s Hs; simpl; [auto|].
    destruct (IH (act s a) (coordinated_act s a Hs)) as [Hc Hd].
    split; [exact Hc|]. rewrite Hd. apply localDeviceId_act. }
  destruct (H (initSync deviceId)) as [[Ha [Hb Hc]] Hd].
  { unfold coordinated. simpl. repeat split; try discriminate.
    intros E. contradiction. }
  repeat split; try apply Ha; auto.
Qed.

(** ** Tracked connections *)

Lemma updateAt_peerIds (f : SyncConnection -> SyncConnection) i l :
  (forall c, peerId (f c) = peerId c) ->
  map peerId (updateAt f i l) = map peerId l.
Proof.
  intros Hf. revert i. induction l as [|c l IH]; intros i; [reflexivity|].
  destruct i; simpl; [rewrite Hf; reflexivity|]. rewrite IH. reflexivity.
Qed.

Lemma peerIds_act st a :
  exists more,
    map peerId (syncClients (act st a)) = map peerId (syncClients st) ++ more.
Proof.
  destruct a; cbn [act].
  - exists []. unfold startBroadcast. destruct (isHosting st); simpl;
      rewrite app_nil_r; reflexivity.
  - exists []. simpl. rewrite app_nil_r. reflexivity.
  - unfold requestSyncFrom. destruct (isHosting st); cbn [fst syncClients].
    + exists []. rewrite app_nil_r. reflexivity.
    + exists [hostIp]. rewrite map_app. reflexivity.
  - exists []. rewrite app_nil_r. unfold performSync.
    destruct (negb (isConnected st) && negb (isHosting st));
      cbn [fst syncClients]; [reflexivity|].
    rewrite map_map. apply map_ext. intros c.
    destruct (connected c); [|reflexivity].
    unfold send. destruct (dataChannel c) as [ch|]; [|reflexivity].
    destruct (isOpen (readyState ch)); reflexivity.
  - exists []. rewrite app_nil_r. simpl. apply updateAt_peerIds. reflexivity.
  - exists []. rewrite app_nil_r. simpl. apply updateAt_peerIds. reflexivity.
Qed.

(** X16: a connection that is tracked stays tracked.  After any calls of
    the coordinator and any channel events, the peers of the tracked
    connections are those tracked before, in their order, followed by
    the peers added since: no call removes a connection, closed or
    not. *)
Theorem syncClients_only_grow (st : State) (actions : list Action) :
  exists more,
    map peerId (syncClients (actAll st actions))
    = map peerId (syncClients st) ++ more.
Proof.
  revert st. induction actions as [|a actions IH]; intros st.
  - exists []. rewrite app_nil_r. reflexivity.
  - destruct (IH (act st a)) as [m2 E2]. destruct (peerIds_act st a) as [m1 E1].
    exists (m1 ++ m2).
    change (actAll st (a :: actions)) with (actAll (act st a) actions).
    rewrite E2, E1, app_assoc. reflexivity.
Qed.

(** ** Roles *)

(** X17: after [stopBroadcast], [performSync] returns false and sends
    nothing, whatever connections are tracked and open:
    [stopBroadcast] resets [isConnected] along with [isHosting]. *)
Theorem performSync_after_stopBroadcast (st : State) (db : DB)
  (now : timestamp) :
  performSync (stopBroadcast st) db now = (stopBroadcast st, false) /\
  syncClients (stopBroadcast st) = syncClients st.
Proof. split; reflexivity. Qed.

(** X18: [startBroadcast] does not look at [isConnected].  A coordinator
    that is not hosting and has called [requestSyncFrom] starts hosting
    when [startBroadcast] is called, and keeps the connection it
    tracks; from then on [requestSyncFrom] is refused. *)
Theorem startBroadcast_while_connected (st : State) (hostIp ip : jsstring)
  (hostPort : N) :
  isHosting st = false ->
  let st1 := fst (requestSyncFrom st hostIp hostPort) in
  let st2 := fst (startBroadcast st1 ip) in
  snd (startBroadcast st1 ip) = Some (ip, SYNC_PORT, localDeviceId st) /\
  isHosting st2 = true /\ isConnected st2 = true /\
  syncClients st2 = syncClients st ++ [newSyncConnection hostIp true] /\
  forall h p, requestSyncFrom st2 h p = (st2, false).
Proof.
  intros H st1 st2. unfold st2, st1, requestSyncFrom, startBroadcast.
  rewrite H. simpl. repeat split.
Qed.

Lemma startBroadcast_while_connected_witness :
  let st := initSync (str "device_a_1") in
  isHosting st = false /\
  isHosting (fst (startBroadcast
                    (fst (requestSyncFrom st (str "192.168.1.20") SYNC_PORT))
                    (str "192.168.1.100"))) = true.
Proof.
  split; [reflexivity|].
  apply (startBroadcast_while_connected (initSync (str "device_a_1"))
           (str "192.168.1.20") (str "192.168.1.100") SYNC_PORT eq_refl).
Defined.

(** ** Messages on a data channel *)

Section Receive.
Variable receipt : jsstring -> timestamp -> jsstring.

(** X19: a received snapshot is logged exactly when its import resolves.
    Then [onSyncComplete(true)] is called and one record of type
    [receive] is appended to the sync records of the database as
    imported; otherwise [onSyncComplete(false, error)] is called with
    the error of the import, no record is added, and the database is
    the one the import left. *)
Theorem handleSyncData_outcome (c : SyncConnection) (db : DB)
  (data : Snapshot.t) (clock : Readings) :
  let imported := fst (importData db data) in
  match snd (importData db data) with
  | Resolved _ =>
      snd (handleSyncData receipt c db data clock) = [OnSyncComplete true None]
      /\ getAllSyncRecords (fst (handleSyncData receipt c db data clock))
         = getAllSyncRecords db
           ++ [mkStored (current (syncRecords db))
                 (SyncRecord.mk (str "receive")
                    (receipt (peerId c) (atReceipt clock)) (atRecord clock))]
      /\ substations (fst (handleSyncData receipt c db data clock))
         = substations imported
      /\ machines (fst (handleSyncData receipt c db data clock))
         = machines imported
      /\ images (fst (handleSyncData receipt c db data clock))
         = images imported
  | Rejected error =>
      handleSyncData receipt c db data clock
      = (imported, [OnSyncComplete false (Some error)])
      /\ getAllSyncRecords imported = getAllSyncRecords db
  end.
Proof.
  intros imported. unfold imported, handleSyncData.
  pose proof (importData_syncRecords_same db data) as Hr.
  destruct (importData db data) as [db1 [r|e]]; cbn [fst snd] in *.
  - unfold addSyncRecord. rewrite add_noIndex. cbn [fst snd].
    unfold getAllSyncRecords, getAll. cbn [syncRecords records].
    rewrite Hr. repeat split.
  - split; [reflexivity|]. unfold getAllSyncRecords. rewrite Hr. reflexivity.
Qed.

(** X20: what a received [sync-data] can do to the store when its import
    fails.  With two substations of one name the database is untouched;
    without a list of substations the substations, machines and images
    of the database are all gone.  In both cases
    [onSyncComplete(false, error)] is the only callback and no sync
    record is added. *)
Theorem handleMessage_syncData_failure (c : SyncConnection) (db : DB)
  (data : Snapshot.t) (clock : Readings) :
  (insertFails db data = true ->
   handleMessage receipt c db (SyncData data) clock
   = (c, db, [OnSyncComplete false (Some ConstraintError)])) /\
  (Snapshot.substations data = None ->
   exists db',
     handleMessage receipt c db (SyncData data) clock
     = (c, db', [OnSyncComplete false (Some TypeError)]) /\
     getAllSubstations db' = [] /\
     getAll (machines db') = [] /\
     getAll (images db') = [] /\
     getAllSyncRecords db' = getAllSyncRecords db).
Proof.
  split.
  - intros H. unfold handleMessage, handleSyncData.
    assert (importData db data = (db, Rejected ConstraintError)) as ->;
      [|reflexivity].
    unfold insertFails in H. unfold importData, importTransaction.
    destruct (Snapshot.substations data) as [subs|]; [|discriminate].
    destruct (addEach Substation.sameName _ subs); simpl.
    + destruct (Snapshot.machines data) as [ms|]; [|discriminate].
      destruct (addEach noIndex _ ms); [discriminate|].
      simpl. destruct db; reflexivity.
    + destruct db; reflexivity.
  - intros H. unfold handleMessage, handleSyncData, importData,
      importTransaction.
    rewrite H. simpl. eexists. split; [reflexivity|]. repeat split.
Qed.

(** X21: the messages other than [sync-data] leave the database as it is
    and call no callback.  On an open channel [ping] is answered by one
    [pong] and [sync-request] by one [sync-data] that carries the
    export of the database; on a channel that is not open neither is
    answered; [pong] is never answered. *)
Theorem handleMessage_replies (c : SyncConnection) (db : DB)
  (clock : Readings) :
  handleMessage receipt c db Ping clock
  = (if channelOpen c then delivered c Pong else c, db, []) /\
  handleMessage receipt c db SyncRequest clock
  = (if channelOpen c
     then delivered c (SyncData (exportAllData db (atExport clock)))
     else c, db, []) /\
  handleMessage receipt c db Pong clock = (c, db, []).
Proof.
  unfold handleMessage, sendSyncData.
  destruct (channelOpen c) eqn:E.
  - rewrite !send_open by exact E. repeat split.
  - unfold channelOpen in E. unfold send.
    destruct (dataChannel c) as [ch|]; [rewrite E|]; repeat split.
Qed.

End Receive.

Lemma handleMessage_syncData_failure_witness :
  let c := onopen (newSyncConnection (str "peer-1") true) in
  let data := Snapshot.mk 1 1700000000003 None None in
  let clock := mkReadings 1700000006000 1700000006001 1700000006002 in
  Snapshot.substations data = None /\
  exists db',
    handleMessage (fun from _ => from) c twoSites (SyncData data) clock
    = (c, db', [OnSyncComplete false (Some TypeError)]) /\
    getAllSubstations db' = [] /\ getAll (machines db') = [].
Proof.
  split; [reflexivity|].
  destruct (proj2 (handleMessage_syncData_failure (fun from _ => from)
                     (onopen (newSyncConnection (str "peer-1") true)) twoSites
                     (Snapshot.mk 1 1700000000003 None None)
                     (mkReadings 1700000006000 1700000006001 1700000006002))
                  eq_refl) as [db' [E [H1 [H2 _]]]].
  exists db'. split; [exact E|]. split; assumption.
Defined.

(** X22: [close] is final for sending.  After [close] the channel is not
    open, so [send] hands nothing more to it; the messages handed to the
    channel before are unchanged, and a second [close] changes
    nothing. *)
Theorem close_then_send (c : SyncConnection) (m : Message) :
  channelOpen (close c) = false /\
  sessionOpen (close c) = false /\
  send (close c) m = close c /\
  close (close c) = close c /\
  option_map sent (dataChannel (close c)) = option_map sent (dataChannel c).
Proof.
  unfold channelOpen, sessionOpen, send, close. simpl.
  destruct (dataChannel c) as [ch|]; simpl;
    rewrite ?andb_false_r; repeat split.
Qed.

(** ** Messages on the broadcast channel *)

(** X23: what a coordinator posts on the broadcast channel has no effect
    where it is received.  The message that [performSync] posts while
    hosting, and the one [requestSync] posts, are handled by a
    [LocalSyncManager] without a callback, without a reply and without
    an import; only an offer calls [onSyncRequest]. *)
Theorem bus_messages_ignored (st : State) (db : DB) (now : timestamp)
  (m receiver : LocalSyncManager) :
  isHosting st = true -> localSyncManager st = Some m ->
  exists message,
    localSyncManager (fst (performSync st db now))
    = Some (mkManager (posted m ++ [message])) /\
    managerHandleMessage receiver (Bus message) = (receiver, []) /\
    (exists request,
       posted (requestSync (localDeviceId st) m) = posted m ++ [request] /\
       managerHandleMessage receiver (Bus request) = (receiver, [])) /\
    forall from, managerHandleMessage receiver (Offer from)
                 = (receiver, [OnSyncRequest from]).
Proof.
  intros Hh Hm. unfold performSync. rewrite Hh, Hm, andb_false_r.
  cbn [fst localSyncManager]. eexists. split; [reflexivity|].
  split; [reflexivity|]. split; [|reflexivity].
  eexists. split; reflexivity.
Qed.

Lemma bus_messages_ignored_witness :
  let st := fst (startBroadcast (initSync (str "device_a_1"))
                                (str "192.168.1.100")) in
  isHosting st = true /\ localSyncManager st = Some (mkManager []) /\
  exists message,
    localSyncManager (fst (performSync st twoSites 1700000007000))
    = Some (mkManager [message]) /\
    managerHandleMessage (mkManager []) (Bus message) = (mkManager [], []).
Proof.
  split; [reflexivity|]. split; [reflexivity|].
  destruct (bus_messages_ignored
              (fst (startBroadcast (initSync (str "device_a_1"))
                                   (str "192.168.1.100")))
              twoSites 1700000007000 (mkManager []) (mkManager [])
              eq_refl eq_refl) as [message [E [H _]]].
  exists message. split; assumption.
Defined.

End SyncMore.
